(** * Database activity monitor: the session timer of [app.py]

    A shallow embedding of [DatabaseMonitorUI] (src/app.py): the poll step
    [check_database_activity] and the timer step [update_ui].

    Python floats are IEEE binary64 numbers, so timestamps are primitive
    [float]s and every arithmetic step of the source ([-], [/], [*], [<=])
    is the binary64 operation.  The two [time.time()] call sites of
    [update_ui] (lines 143 and 148) are inputs of a tick, as is the outcome
    of the database round trip (lines 114-130).  Widgets are the values they
    display; [notification.notify] and [logging.error] append to lists. *)

From Stdlib Require Import ZArith QArith Qround Qpower Qfield Lqa Bool String List
  Lia DecimalString.
From Stdlib Require Import Floats.PrimFloat Floats.FloatOps Floats.SpecFloat
  Floats.FloatAxioms.
Import ListNotations.

Local Open Scope list_scope.
Local Open Scope string_scope.
Local Open Scope Z_scope.

(** ** Python values used by the program *)

(** Exceptions that the code can meet; [str_exn] is [str(e)]. *)
Inductive exn : Type :=
| ValueError (msg : string)
| OverflowError (msg : string)
| IndexError (msg : string)
| DatabaseError (msg : string).

Definition str_exn (e : exn) : string :=
  match e with
  | ValueError m | OverflowError m | IndexError m | DatabaseError m => m
  end.

(** A str-or-None value (a nullable text column, the [program] argument). *)
Definition pystr := option string.

(** [f"{v}"] for a str-or-None value. *)
Definition format_pystr (v : pystr) : string :=
  match v with
  | Some s => s
  | None => "None"
  end.

(** Truth value of a float: everything but zero (of either sign). *)
Definition bool_float (x : float) : bool := negb (x =? 0)%float.

(** Truth value of [self.session_start] (None or a float). *)
Definition truthy (v : option float) : bool :=
  match v with
  | None => false
  | Some x => bool_float x
  end.

(** [int(x)]: truncation toward zero; NaN and the infinities raise. *)
Definition int_of_float (x : float) : exn + Z :=
  match Prim2SF x with
  | S754_nan => inl (ValueError "cannot convert float NaN to integer")
  | S754_infinity _ =>
      inl (OverflowError "cannot convert float infinity to integer")
  | S754_zero _ => inr 0
  | S754_finite s m e =>
      let a := Z.shiftl (Z.pos m) e in
      inr (if s then - a else a)
  end.

(** The value [m * 2^e] of a mantissa and an exponent. *)
Definition finite_value (m : positive) (e : Z) : Q :=
  if 0 <=? e then inject_Z (Z.pos m * 2 ^ e)
  else Qmake (Z.pos m) (Pos.pow 2 (Z.to_pos (- e))).

(** The rational value of a finite float. *)
Definition Q_of_float (x : float) : option Q :=
  match Prim2SF x with
  | S754_nan | S754_infinity _ => None
  | S754_zero _ => Some 0%Q
  | S754_finite s m e =>
      Some (if s then Qopp (finite_value m e) else finite_value m e)
  end.

(** [rows[i]] on a list. *)
Definition getitem {A : Type} (l : list A) (i : nat) : exn + A :=
  match nth_error l i with
  | Some a => inr a
  | None => inl (IndexError "list index out of range")
  end.

(** Truth value of a list. *)
Definition bool_list {A : Type} (l : list A) : bool :=
  match l with
  | [] => false
  | _ :: _ => true
  end.

(** ** [datetime.timedelta] built from whole seconds *)

Record timedelta : Type := mk_timedelta { td_days : Z; td_seconds : Z }.

Definition str_Z (z : Z) : string := NilZero.string_of_int (Z.to_int z).

(** ["%02d" % z] for [0 <= z]. *)
Definition str_02d (z : Z) : string :=
  if z <? 10 then "0" ++ str_Z z else str_Z z.

(** [timedelta(seconds=n)]: normalised to days and seconds-of-day.  The
    day count must fit a C int, and then be within the range of the type. *)
Definition timedelta_of_seconds (n : Z) : exn + timedelta :=
  let d := n / 86400 in
  let s := n mod 86400 in
  if (d <? - 2147483648) || (2147483647 <? d)
  then inl (OverflowError "Python int too large to convert to C int")
  else if 999999999 <? Z.abs d
  then inl (OverflowError
              ("days=" ++ str_Z d ++ "; must have magnitude <= 999999999"))
  else inr (mk_timedelta d s).

(** [str(td)]. *)
Definition str_timedelta (td : timedelta) : string :=
  let mm := td_seconds td / 60 in
  let ss := td_seconds td mod 60 in
  let hh := mm / 60 in
  let mm := mm mod 60 in
  let s := str_Z hh ++ ":" ++ str_02d mm ++ ":" ++ str_02d ss in
  if td_days td =? 0 then s
  else str_Z (td_days td) ++ " day"
       ++ (if Z.abs (td_days td) =? 1 then "" else "s") ++ ", " ++ s.

(** ** The monitor object *)

Record Notification : Type := mk_notification {
  title : string;
  message : string;
  timeout : Z
}.

Record DatabaseMonitorUI : Type := mk_ui {
  server_name : string;
  database_name : string;
  session_start : option float;
  notification_sent : bool;
  status_label : string;
  program_label : string;
  time_label : string;
  progress_bar : Z;                 (* QProgressBar.value() *)
  notifications : list Notification; (* calls of notification.notify, oldest first *)
  error_log : list string            (* logging.error records, oldest first *)
}.

(** 60 * 60, promoted to float by the mixed arithmetic of lines 150 and 165. *)
Definition max_duration : float := 3600%float.

(** [__init__] with [setup_ui]: no session, flag unset, a fresh progress bar
    (which reports -1 until a value is set). *)
Definition init (server database : string) : DatabaseMonitorUI :=
  {| server_name := server;
     database_name := database;
     session_start := None;
     notification_sent := false;
     status_label := "Waiting for database activity...";
     program_label := "Program: None";
     time_label := "Time Remaining: --:--:--";
     progress_bar := -1;
     notifications := [];
     error_log := [] |}.

(** ** Statements: state passing with exceptions *)

Definition M (A : Type) : Type :=
  DatabaseMonitorUI -> DatabaseMonitorUI * (exn + A).

Definition ret {A : Type} (a : A) : M A := fun self => (self, inr a).

Definition raise {A : Type} (e : exn) : M A := fun self => (self, inl e).

Definition bind {A B : Type} (c : M A) (k : A -> M B) : M B :=
  fun self =>
    match c self with
    | (self', inr a) => k a self'
    | (self', inl e) => (self', inl e)
    end.

Definition lift {A : Type} (r : exn + A) : M A :=
  match r with
  | inr a => ret a
  | inl e => raise e
  end.

Definition get : M DatabaseMonitorUI := fun self => (self, inr self).

Definition modify (f : DatabaseMonitorUI -> DatabaseMonitorUI) : M unit :=
  fun self => (f self, inr tt).

Notation "x <- c ;; k" := (bind c (fun x => k))
  (at level 61, c at next level, right associativity).
Notation "c ;; k" := (bind c (fun _ => k))
  (at level 61, right associativity).

(** Attribute writes and widget calls. *)

Definition set_session_start (v : option float) : M unit :=
  modify (fun u =>
    mk_ui (server_name u) (database_name u) v (notification_sent u)
          (status_label u) (program_label u) (time_label u) (progress_bar u)
          (notifications u) (error_log u)).

Definition set_notification_sent (b : bool) : M unit :=
  modify (fun u =>
    mk_ui (server_name u) (database_name u) (session_start u) b
          (status_label u) (program_label u) (time_label u) (progress_bar u)
          (notifications u) (error_log u)).

Definition status_label_setText (s : string) : M unit :=
  modify (fun u =>
    mk_ui (server_name u) (database_name u) (session_start u)
          (notification_sent u) s (program_label u) (time_label u)
          (progress_bar u) (notifications u) (error_log u)).

Definition program_label_setText (s : string) : M unit :=
  modify (fun u =>
    mk_ui (server_name u) (database_name u) (session_start u)
          (notification_sent u) (status_label u) s (time_label u)
          (progress_bar u) (notifications u) (error_log u)).

Definition time_label_setText (s : string) : M unit :=
  modify (fun u =>
    mk_ui (server_name u) (database_name u) (session_start u)
          (notification_sent u) (status_label u) (program_label u) s
          (progress_bar u) (notifications u) (error_log u)).

(** [QProgressBar.setValue] through PyQt: the argument must fit a C int;
    a value outside [minimum, maximum] = [0, 100] (line 63) is ignored. *)
Definition progress_bar_setValue (v : Z) : M unit :=
  if (v <? - 2147483648) || (2147483647 <? v)
  then raise (OverflowError
    "argument 1 overflowed: value must be in the range -2147483648 to 2147483647")
  else if (v <? 0) || (100 <? v) then ret tt
  else modify (fun u =>
    mk_ui (server_name u) (database_name u) (session_start u)
          (notification_sent u) (status_label u) (program_label u)
          (time_label u) v (notifications u) (error_log u)).

(** [send_notification] (lines 104-110): fire and forget, 10 s on screen;
    the platform call is taken not to raise. *)
Definition send_notification (ttl msg : string) : M unit :=
  modify (fun u =>
    mk_ui (server_name u) (database_name u) (session_start u)
          (notification_sent u) (status_label u) (program_label u)
          (time_label u) (progress_bar u)
          (notifications u ++ [mk_notification ttl msg 10])%list (error_log u)).

Definition logging_error (s : string) : M unit :=
  modify (fun u =>
    mk_ui (server_name u) (database_name u) (session_start u)
          (notification_sent u) (status_label u) (program_label u)
          (time_label u) (progress_bar u) (notifications u)
          (error_log u ++ [s])%list).

(** ** Inputs of a tick *)

(** The values returned by [time.time()] at its two call sites. *)
Record Clock : Type := mk_clock {
  at_detect : float;   (* line 143, read when a session starts *)
  at_check : float     (* line 148, read when a session is in progress *)
}.

(** A row of the query of lines 116-127. *)
Record Row : Type := mk_row {
  session_id : Z;
  program_name : pystr;
  login_name : string;
  host_name : pystr;
  last_request_start_time : string
}.

(** One firing of the 2-second timer: what connect/execute/fetchall produce
    (an exception, or the fetched rows) and what the clock reads.  Leaving
    the two [with] blocks after [update_ui] has returned is taken not to
    raise. *)
Record Tick : Type := mk_tick {
  fetched : exn + list Row;
  clock : Clock
}.

(** ** [update_ui] (lines 141-169) *)

Definition completion_notice : Notification :=
  mk_notification "Database Monitor" "Time's up! 60 minutes completed." 10.

Definition five_minute_notice : Notification :=
  mk_notification "Database Monitor" "5 minutes remaining!" 10.

Definition update_ui (now : Clock) (is_active : bool) (program : pystr)
  : M unit :=
  self <- get ;;
  (if is_active && negb (truthy (session_start self)) then
     set_session_start (Some (at_detect now)) ;;
     status_label_setText "Activity detected! Monitoring..." ;;
     program_label_setText ("Program: " ++ format_pystr program)
   else ret tt) ;;
  self <- get ;;
  match session_start self with
  | Some start =>
      if bool_float start then
        let current_time := at_check now in
        let elapsed := (current_time - start)%float in
        let remaining := (max_duration - elapsed)%float in
        if (remaining <=? 0)%float then
          set_session_start None ;;
          status_label_setText "Time's up! Session completed." ;;
          send_notification "Database Monitor"
                            "Time's up! 60 minutes completed." ;;
          set_notification_sent false
        else
          (if (remaining <=? 300)%float && negb (notification_sent self) then
             send_notification "Database Monitor" "5 minutes remaining!" ;;
             set_notification_sent true
           else ret tt) ;;
          let progress := ((elapsed / max_duration) * 100)%float in
          v <- lift (int_of_float progress) ;;
          progress_bar_setValue v ;;
          n <- lift (int_of_float remaining) ;;
          td <- lift (timedelta_of_seconds n) ;;
          time_label_setText ("Time Remaining: " ++ str_timedelta td)
      else ret tt
  | None => ret tt
  end.

Arguments update_ui : simpl never.

(** ** [check_database_activity] (lines 112-139) *)

(** Lines 132-133: what the poller hands to [update_ui]. *)
Definition report (rows : list Row) : exn + (bool * pystr) :=
  let is_active := (0 <? length rows)%nat in
  match (if bool_list rows
         then match getitem rows 0 with
              | inr r => inr (program_name r)
              | inl e => inl e
              end
         else inr (Some "Unknown")) with
  | inr program => inr (is_active, program)
  | inl e => inl e
  end.

(** Lines 137-139: the handler of [except Exception as e]. *)
Definition on_exception (e : exn) : M unit :=
  logging_error ("Connection error: " ++ str_exn e) ;;
  status_label_setText ("Error: " ++ str_exn e).

(** Lines 113-135: the body of the [try]. *)
Definition poll_and_update (t : Tick) : M unit :=
  rows <- lift (fetched t) ;;
  r <- lift (report rows) ;;
  update_ui (clock t) (fst r) (snd r).

(** The callback never raises: whatever the body raises is handled. *)
Definition check_database_activity (t : Tick) (self : DatabaseMonitorUI)
  : DatabaseMonitorUI :=
  match poll_and_update t self with
  | (self', inr _) => self'
  | (self', inl e) => fst (on_exception e self')
  end.

(** The monitor after a sequence of ticks. *)
Definition run (ticks : list Tick) (self : DatabaseMonitorUI)
  : DatabaseMonitorUI :=
  fold_left (fun u t => check_database_activity t u) ticks self.

(** ** Derived quantities of a tick *)

Definition elapsed_at (now : Clock) (start : float) : float :=
  (at_check now - start)%float.

Definition remaining_at (now : Clock) (start : float) : float :=
  (max_duration - elapsed_at now start)%float.

Definition progress_at (now : Clock) (start : float) : float :=
  ((elapsed_at now start / max_duration) * 100)%float.

(** A session is in progress when [self.session_start] is truthy. *)
Definition running (self : DatabaseMonitorUI) : bool :=
  truthy (session_start self).

(** Lines 143-145 on their own: the state right after a session starts. *)
Definition begun (now : Clock) (program : pystr) (self : DatabaseMonitorUI)
  : DatabaseMonitorUI :=
  mk_ui (server_name self) (database_name self) (Some (at_detect now))
        (notification_sent self) "Activity detected! Monitoring..."
        ("Program: " ++ format_pystr program) (time_label self)
        (progress_bar self) (notifications self) (error_log self).

(** The fields the timer owns: everything but the status line and the log. *)
Definition timer_view (u : DatabaseMonitorUI) :=
  (session_start u, notification_sent u, program_label u,
   time_label u, progress_bar u, notifications u).

(** Line 133 without the indexing: the program name that is reported. *)
Definition program_of (rows : list Row) : pystr :=
  match rows with
  | r :: _ => program_name r
  | [] => Some "Unknown"
  end.

(** ** What a tick can do *)

(** What a tick can do to the timer: nothing that is announced, the
    5-minute warning, or the completion. *)
Inductive effect (self u : DatabaseMonitorUI) : Prop :=
| Quiet :
    notifications u = notifications self ->
    notification_sent u = notification_sent self ->
    (running self = true ->
     session_start u = session_start self /\
     program_label u = program_label self) ->
    (running u = false -> running self = false) ->
    effect self u
| Warned :
    notifications u = (notifications self ++ [five_minute_notice])%list ->
    notification_sent self = false ->
    notification_sent u = true ->
    running u = true ->
    (running self = true ->
     session_start u = session_start self /\
     program_label u = program_label self) ->
    effect self u
| Expired :
    notifications u = (notifications self ++ [completion_notice])%list ->
    notification_sent u = false ->
    session_start u = None ->
    (running self = true -> program_label u = program_label self) ->
    effect self u.

(** ** Invariants of the timer *)

(** Outside a session the one-shot flag is down. *)
Definition flag_down_when_idle (u : DatabaseMonitorUI) : Prop :=
  running u = false -> notification_sent u = false.

Definition Notification_eq_dec (a b : Notification) : {a = b} + {a <> b}.
Proof.
  decide equality; [apply Z.eq_dec | apply string_dec | apply string_dec].
Defined.

(** Replaying a history the way the flag sees it: a completion lowers the
    flag, a warning raises it, and a warning met with the flag up is one too
    many. *)
Fixpoint replay (warned : bool) (history : list Notification) : option bool :=
  match history with
  | [] => Some warned
  | n :: rest =>
      if Notification_eq_dec n completion_notice then replay false rest
      else if Notification_eq_dec n five_minute_notice then
        if warned then None else replay true rest
      else replay warned rest
  end.

(** The flag is the state of the replay. *)
Definition flag_replays (u : DatabaseMonitorUI) : Prop :=
  replay false (notifications u) = Some (notification_sent u).

(** ** Binary64 numbers as rationals, and what rounding keeps

    The arithmetic of [float] is specified by the standard library through
    [Prim2SF]: an operation on floats is the corresponding operation of
    [SpecFloat] on mantissas and exponents, which computes an exact integer
    result, shifts it right to 53 bits while recording the bits shifted
    out, and rounds to nearest even. *)

(** The power [2^e] and the number [m * 2^e]. *)
Definition pow2 (e : Z) : Q := (2 ^ e)%Q.

Definition scaled (m e : Z) : Q := (inject_Z m * pow2 e)%Q.

Abbreviation fexp64 := (fexp prec emax).

(** The round and sticky bits of a shift record tell where the fraction
    that was shifted out lies: nothing, below one half, one half, above. *)
Definition frac_ok (r s : bool) (f : Q) : Prop :=
  match r, s with
  | false, false => (f == 0)%Q
  | false, true => (0 < f /\ f < 1 # 2)%Q
  | true, false => (f == 1 # 2)%Q
  | true, true => ((1 # 2) < f /\ f < 1)%Q
  end.

(** A shift record at exponent [e] stands for the exact value [V]. *)
Definition represents (mrs : shr_record) (e : Z) (V : Q) : Prop :=
  0 <= shr_m mrs /\
  exists f, frac_ok (shr_r mrs) (shr_s mrs) f /\
            (V == (inject_Z (shr_m mrs) + f) * pow2 e)%Q.

(** A result that is +0 or a positive finite number not above [B]. *)
Definition at_most (x : spec_float) (B : Q) : Prop :=
  match x with
  | S754_zero s => s = false
  | S754_finite s m e => s = false /\ (scaled (Z.pos m) e <= B)%Q
  | _ => False
  end.

(** A result that is strictly positive: finite, or +infinity. *)
Definition is_positive (x : spec_float) : Prop :=
  match x with
  | S754_finite false _ _ | S754_infinity false => True
  | _ => False
  end.

(** The constants 3600.0 and 100.0 of lines 150 and 165, decoded. *)
Definition sf_3600 : spec_float := S754_finite false 7916483719987200 (-41).

Definition sf_100 : spec_float := S754_finite false 7036874417766400 (-46).

(** The largest doubles below 1 and below 100. *)
Definition below_1 : Q := scaled (2 ^ 53 - 1) (-53).

Definition below_100 : Q := scaled (25 * 2 ^ 48 - 1) (-46).

(** The flag is up exactly when the last notice sent is the warning. *)
Definition flag_marks_last_warning (u : DatabaseMonitorUI) : Prop :=
  notification_sent u = true <->
  exists l, notifications u = (l ++ [five_minute_notice])%list.

(** ** Kinds of tick and of display *)

(** A tick whose database round trip raises. *)
Definition poll_failed (t : Tick) : Prop := exists e, fetched t = inl e.

(** A tick whose query succeeds and returns no row. *)
Definition found_nothing (t : Tick) : Prop := fetched t = inr [].

(** Hours, minutes and seconds of [n] seconds, as [str] prints a
    [timedelta] of less than a day. *)
Definition hms (n : Z) : string :=
  str_Z (n / 3600) ++ ":" ++ str_02d (n / 60 mod 60) ++ ":"
  ++ str_02d (n mod 60).

(** How often a notice occurs in a history. *)
Definition times (n : Notification) (history : list Notification) : nat :=
  count_occ Notification_eq_dec history n.

(** ** Sample inputs *)

Definition fresh : DatabaseMonitorUI := init "srv" "train_test".

Definition row1 : Row := mk_row 52 (Some "sqlcmd") "sa" (Some "HOST") "2024-01-01".

Definition row2 : Row := mk_row 60 (Some "Excel") "guest" None "2024-01-01".

Definition tick_at (rows : list Row) (t : float) : Tick :=
  mk_tick (inr rows) (mk_clock t t).

(** A session begun at 1700000000 (seconds since the epoch). *)
Definition started : DatabaseMonitorUI :=
  run [tick_at [row1] 1700000000%float] fresh.

(** ** Stepping through [update_ui] *)

Ltac ui_unfold :=
  cbv [update_ui poll_and_update on_exception check_database_activity
       bind get ret raise lift modify
       set_session_start set_notification_sent status_label_setText
       program_label_setText time_label_setText progress_bar_setValue
       send_notification logging_error
       elapsed_at remaining_at progress_at running] in *;
  cbn [server_name database_name session_start notification_sent
       status_label program_label time_label progress_bar notifications
       error_log fst snd truthy andb negb orb] in *;
  rewrite ?andb_false_r, ?andb_true_r in *.

Ltac ui_known :=
  match goal with
  | H : session_start ?u = _ |- context [session_start ?u] => rewrite H
  | H : notification_sent ?u = _ |- context [notification_sent ?u] =>
      rewrite H
  | H : ?c = true |- context [if ?c then _ else _] => rewrite H
  | H : ?c = false |- context [if ?c then _ else _] => rewrite H
  | H : ?c = true |- context [negb ?c] => rewrite H
  | H : ?c = false |- context [negb ?c] => rewrite H
  | H : ?c = inl _ |- context [match ?c with _ => _ end] => rewrite H
  | H : ?c = inr _ |- context [match ?c with _ => _ end] => rewrite H
  end.

Ltac ui_split :=
  match goal with
  | |- context [if ?c then _ else _] => destruct c eqn:?
  | |- context [match int_of_float ?x with _ => _ end] =>
      destruct (int_of_float x) eqn:?
  | |- context [match timedelta_of_seconds ?x with _ => _ end] =>
      destruct (timedelta_of_seconds x) eqn:?
  | |- context [match session_start ?u with _ => _ end] =>
      destruct (session_start u) eqn:?
  end.

(** Follow the branches fixed by the hypotheses. *)
Ltac ui_known_steps := ui_unfold; repeat (ui_known; ui_unfold).

(** Follow them, and split on every condition left open. *)
Ltac ui_steps :=
  ui_known_steps;
  repeat (ui_split; ui_known_steps; try discriminate; try congruence).

(** * Properties *)

(** ** Sample runs *)

Example run_start :
  let u := run [tick_at [row1] 1700000000%float] fresh in
  (session_start u, status_label u, program_label u, time_label u,
   progress_bar u, notifications u)
  = (Some 1700000000%float, "Activity detected! Monitoring...",
     "Program: sqlcmd", "Time Remaining: 1:00:00", 0, []).
Proof. vm_compute. reflexivity. Qed.

Example run_warning :
  let u := run [tick_at [row1] 1700000000%float;
                tick_at [] 1700003301.5%float] fresh in
  (session_start u, notification_sent u, time_label u, progress_bar u,
   notifications u)
  = (Some 1700000000%float, true, "Time Remaining: 0:04:58", 91,
     [five_minute_notice]).
Proof. vm_compute. reflexivity. Qed.

Example run_expiry :
  let u := run [tick_at [row1] 1700000000%float;
                tick_at [row1] 1700003301.5%float;
                tick_at [row1] 1700003600%float] fresh in
  (session_start u, notification_sent u, status_label u, time_label u,
   progress_bar u, notifications u)
  = (None, false, "Time's up! Session completed.",
     "Time Remaining: 0:04:58", 91,
     [five_minute_notice; completion_notice]).
Proof. vm_compute. reflexivity. Qed.

(** ** Stepping through [update_ui], case by case *)

Lemma update_ui_expiry now is_active program self start :
  session_start self = Some start ->
  bool_float start = true ->
  (remaining_at now start <=? 0)%float = true ->
  update_ui now is_active program self =
  (mk_ui (server_name self) (database_name self) None false
         "Time's up! Session completed." (program_label self)
         (time_label self) (progress_bar self)
         (notifications self ++ [completion_notice])%list (error_log self),
   inr tt).
Proof.
  intros Hs Ht Hr. ui_known_steps. reflexivity.
Qed.

(** With no session and no activity, [update_ui] does nothing. *)
Lemma update_ui_idle now program self :
  running self = false ->
  update_ui now false program self = (self, inr tt).
Proof.
  intros Hidle. ui_unfold.
  destruct (session_start self) as [start|]; ui_known_steps; reflexivity.
Qed.

(** When a session is in progress the arguments of [update_ui] are unused. *)
Lemma update_ui_running_args now is_active program self :
  running self = true ->
  update_ui now is_active program self = update_ui now false None self.
Proof.
  intros Hrun. ui_unfold. rewrite Hrun. ui_unfold. reflexivity.
Qed.

(** Activity without a session: lines 143-145 run, then the rest of the
    function sees the session that has just begun. *)
Lemma update_ui_begin now program self :
  running self = false ->
  update_ui now true program self =
  update_ui now false program (begun now program self).
Proof.
  intros Hidle. unfold begun. ui_unfold. rewrite Hidle. ui_unfold.
  reflexivity.
Qed.

(** A tick of a session that has time left: what it keeps, and the one
    thing it may announce.  This holds whether or not the display update
    at the end of the function raises. *)
Lemma update_ui_countdown now is_active program self start :
  session_start self = Some start ->
  bool_float start = true ->
  (remaining_at now start <=? 0)%float = false ->
  let due := ((remaining_at now start <=? 300)%float
              && negb (notification_sent self))%bool in
  let u := fst (update_ui now is_active program self) in
  session_start u = Some start /\
  status_label u = status_label self /\
  program_label u = program_label self /\
  error_log u = error_log self /\
  notification_sent u = (notification_sent self || due)%bool /\
  notifications u =
    (if due then notifications self ++ [five_minute_notice]
     else notifications self)%list.
Proof.
  intros Hs Ht Hr due u. subst due u.
  rewrite update_ui_running_args by (unfold running; rewrite Hs; exact Ht).
  destruct (notification_sent self) eqn:Hsent;
    destruct (remaining_at now start <=? 300)%float eqn:Hw;
    ui_steps; cbn; repeat split; reflexivity.
Qed.

(** ** One tick, seen from outside *)

Lemma report_eq rows : report rows = inr (bool_list rows, program_of rows).
Proof. destruct rows; reflexivity. Qed.

Lemma on_exception_view e u :
  timer_view (fst (on_exception e u)) = timer_view u.
Proof. reflexivity. Qed.

Lemma tick_failed t e self :
  fetched t = inl e ->
  check_database_activity t self = fst (on_exception e self).
Proof.
  intros Hf. unfold check_database_activity, poll_and_update, bind, lift.
  rewrite Hf. reflexivity.
Qed.

Lemma tick_fetched t rows self :
  fetched t = inr rows ->
  check_database_activity t self =
  match update_ui (clock t) (bool_list rows) (program_of rows) self with
  | (u, inr _) => u
  | (u, inl e) => fst (on_exception e u)
  end.
Proof.
  intros Hf. unfold check_database_activity, poll_and_update, bind, lift.
  rewrite Hf. cbv beta iota delta [ret raise].
  rewrite report_eq. reflexivity.
Qed.

(** The timer's fields after a tick are those [update_ui] left, or the old
    ones when the poll failed. *)
Lemma tick_view t self :
  timer_view (check_database_activity t self) = timer_view self \/
  exists is_active program,
    timer_view (check_database_activity t self) =
    timer_view (fst (update_ui (clock t) is_active program self)).
Proof.
  destruct (fetched t) as [e|rows] eqn:Hf.
  - left. rewrite (tick_failed _ _ _ Hf). apply on_exception_view.
  - right. exists (bool_list rows), (program_of rows).
    rewrite (tick_fetched _ _ _ Hf).
    destruct (update_ui _ _ _ _) as [u [e|[]]]; reflexivity.
Qed.

Lemma effect_refl self : effect self self.
Proof. apply Quiet; auto. Qed.

(** The effect of a session in progress. *)
Lemma update_ui_effect_running now is_active program self :
  running self = true ->
  effect self (fst (update_ui now is_active program self)).
Proof.
  intros Hrun. pose proof Hrun as Hrun'. unfold running in Hrun'.
  destruct (session_start self) as [start|] eqn:Hs; [|discriminate].
  cbn in Hrun'.
  destruct (remaining_at now start <=? 0)%float eqn:Hr.
  - rewrite (update_ui_expiry _ _ _ _ _ Hs Hrun' Hr). cbn [fst].
    apply Expired; reflexivity.
  - destruct (update_ui_countdown now is_active program self start Hs Hrun' Hr)
      as (H1 & _ & H3 & _ & H5 & H6).
    destruct (notification_sent self) eqn:Hsent;
      destruct (remaining_at now start <=? 300)%float eqn:Hw;
      rewrite ?Hsent, ?Hw in H5, H6; cbn [orb andb negb] in H5, H6.
    1,2,4: apply Quiet;
      [ exact H6 | congruence | intros _; split; [congruence | exact H3]
      | unfold running; rewrite H1; cbn; congruence ].
    apply Warned; auto.
    + unfold running. rewrite H1. exact Hrun'.
    + intros _. split; [congruence | exact H3].
Qed.

Lemma update_ui_effect now is_active program self :
  effect self (fst (update_ui now is_active program self)).
Proof.
  destruct (running self) eqn:Hrun.
  - now apply update_ui_effect_running.
  - destruct is_active.
    + rewrite (update_ui_begin _ _ _ Hrun).
      destruct (running (begun now program self)) eqn:Hb.
      * pose proof (update_ui_effect_running now false program _ Hb) as E.
        set (u := fst (update_ui now false program (begun now program self)))
          in *.
        destruct E as [E1 E2 E3 E4 | E1 E2 E3 E4 E5 | E1 E2 E3 E4];
          cbn in E1, E2; try (cbn in E3).
        -- apply Quiet; auto; congruence.
        -- apply Warned; auto; congruence.
        -- apply Expired; auto; congruence.
      * rewrite (update_ui_idle _ _ _ Hb). cbn [fst].
        apply Quiet; auto; congruence.
    + rewrite (update_ui_idle _ _ _ Hrun). apply effect_refl.
Qed.

Lemma effect_view self u u' :
  effect self u -> timer_view u' = timer_view u -> effect self u'.
Proof.
  unfold timer_view. intros E Hv. injection Hv as H1 H2 H3 H4 H5 H6.
  assert (Hr : running u' = running u) by (unfold running; congruence).
  destruct E as [E1 E2 E3 E4 | E1 E2 E3 E4 E5 | E1 E2 E3 E4].
  - apply Quiet; try congruence.
    + intros Hrun. destruct (E3 Hrun). split; congruence.
    + intros Hu. apply E4. congruence.
  - apply Warned; try congruence.
    intros Hrun. destruct (E5 Hrun). split; congruence.
  - apply Expired; try congruence.
    intros Hrun. rewrite <- (E4 Hrun). congruence.
Qed.

Lemma tick_effect t self : effect self (check_database_activity t self).
Proof.
  destruct (tick_view t self) as [Hv | (a & p & Hv)].
  - exact (effect_view _ _ _ (effect_refl self) Hv).
  - exact (effect_view _ _ _ (update_ui_effect (clock t) a p self) Hv).
Qed.

(** ** Runs *)

Lemma run_cons t ticks self :
  run (t :: ticks) self = run ticks (check_database_activity t self).
Proof. reflexivity. Qed.

Lemma run_snoc ticks t self :
  run (ticks ++ [t])%list self = check_database_activity t (run ticks self).
Proof. unfold run. rewrite fold_left_app. reflexivity. Qed.

Lemma run_app ticks ticks' self :
  run (ticks ++ ticks')%list self = run ticks' (run ticks self).
Proof. unfold run. apply fold_left_app. Qed.

Lemma effect_flag_down self u :
  effect self u -> flag_down_when_idle self -> flag_down_when_idle u.
Proof.
  unfold flag_down_when_idle.
  intros [E1 E2 E3 E4 | E1 E2 E3 E4 E5 | E1 E2 E3 E4] Hinv Hu.
  - rewrite E2. auto.
  - congruence.
  - exact E2.
Qed.

Lemma run_flag_down ticks self :
  flag_down_when_idle self -> flag_down_when_idle (run ticks self).
Proof.
  revert self. induction ticks as [|t ticks IH]; intros self Hinv.
  - exact Hinv.
  - rewrite run_cons. apply IH.
    exact (effect_flag_down _ _ (tick_effect t self) Hinv).
Qed.

Lemma replay_app warned l l' :
  replay warned (l ++ l')%list =
  match replay warned l with
  | Some w => replay w l'
  | None => None
  end.
Proof.
  revert warned. induction l as [|n l IH]; intros warned; cbn [replay app].
  - reflexivity.
  - destruct (Notification_eq_dec n completion_notice); [apply IH|].
    destruct (Notification_eq_dec n five_minute_notice); [|apply IH].
    destruct warned; [reflexivity | apply IH].
Qed.

(** A history that replays has a completion between any two warnings. *)
Lemma replay_warned_then l2 l3 w :
  replay true (l2 ++ five_minute_notice :: l3)%list = Some w ->
  In completion_notice l2.
Proof.
  induction l2 as [|n l2 IH]; cbn [replay app]; intros H.
  - destruct (Notification_eq_dec five_minute_notice completion_notice);
      [discriminate|].
    destruct (Notification_eq_dec five_minute_notice five_minute_notice);
      [discriminate | congruence].
  - destruct (Notification_eq_dec n completion_notice) as [->|];
      [left; reflexivity|].
    destruct (Notification_eq_dec n five_minute_notice); [discriminate|].
    right. exact (IH H).
Qed.

Lemma replay_two_warnings warned l1 l2 l3 w :
  replay warned (l1 ++ five_minute_notice :: l2 ++ five_minute_notice :: l3)%list
  = Some w ->
  In completion_notice l2.
Proof.
  rewrite replay_app. destruct (replay warned l1) as [w1|]; [|discriminate].
  cbn [replay].
  destruct (Notification_eq_dec five_minute_notice completion_notice);
    [discriminate|].
  destruct (Notification_eq_dec five_minute_notice five_minute_notice);
    [|congruence].
  destruct w1; [discriminate|]. apply replay_warned_then.
Qed.

Lemma effect_flag_replays self u :
  effect self u -> flag_replays self -> flag_replays u.
Proof.
  unfold flag_replays.
  intros [E1 E2 E3 E4 | E1 E2 E3 E4 E5 | E1 E2 E3 E4] Hinv.
  - congruence.
  - rewrite E1, replay_app, Hinv, E2, E3. reflexivity.
  - rewrite E1, replay_app, Hinv, E2. reflexivity.
Qed.

Lemma run_flag_replays ticks self :
  flag_replays self -> flag_replays (run ticks self).
Proof.
  revert self. induction ticks as [|t ticks IH]; intros self Hinv.
  - exact Hinv.
  - rewrite run_cons. apply IH.
    exact (effect_flag_replays _ _ (tick_effect t self) Hinv).
Qed.

(** Notifications are only ever appended. *)
Lemma run_notifications_grow ticks self :
  exists d, notifications (run ticks self) = (notifications self ++ d)%list.
Proof.
  revert self. induction ticks as [|t ticks IH]; intros self.
  - exists []. symmetry. apply app_nil_r.
  - rewrite run_cons.
    destruct (IH (check_database_activity t self)) as [d Hd].
    destruct (tick_effect t self) as [E1 _ _ _ | E1 _ _ _ _ | E1 _ _ _];
      rewrite E1 in Hd.
    + now exists d.
    + exists ([five_minute_notice] ++ d)%list. now rewrite app_assoc.
    + exists ([completion_notice] ++ d)%list. now rewrite app_assoc.
Qed.

(** ** Floats as numbers *)

Lemma finite_value_pos m e : (0 < finite_value m e)%Q.
Proof.
  unfold finite_value. destruct (0 <=? e) eqn:He.
  - apply Z.leb_le in He.
    assert (Hpos : 0 < Z.pos m * 2 ^ e)
      by (apply Z.mul_pos_pos; [lia | now apply Z.pow_pos_nonneg]).
    unfold Qlt, inject_Z. cbn [Qnum Qden]. lia.
  - unfold Qlt. cbn [Qnum Qden]. lia.
Qed.

Lemma finite_value_floor m e :
  Qfloor (finite_value m e) = Z.shiftl (Z.pos m) e.
Proof.
  unfold finite_value. destruct (0 <=? e) eqn:He.
  - apply Z.leb_le in He. rewrite Qfloor_Z. symmetry.
    now apply Z.shiftl_mul_pow2.
  - apply Z.leb_gt in He. cbn [Qfloor].
    rewrite Pos2Z.inj_pow, Z2Pos.id by lia.
    rewrite <- (Z.opp_involutive e) at 2.
    rewrite Z.shiftl_opp_r. symmetry. apply Z.shiftr_div_pow2. lia.
Qed.

(** [int] of a non-negative finite float is the floor of its value. *)
Lemma int_of_float_floor x q :
  Q_of_float x = Some q -> (0 <= q)%Q -> int_of_float x = inr (Qfloor q).
Proof.
  unfold Q_of_float, int_of_float.
  destruct (Prim2SF x) as [s|s| |s m e]; try discriminate.
  - intros [= <-] _. reflexivity.
  - intros [= <-] Hq. f_equal. destruct s.
    + exfalso. pose proof (finite_value_pos m e) as Hpos.
      apply (Qlt_irrefl 0).
      apply Qlt_le_trans with (y := finite_value m e); [exact Hpos|].
      apply Qopp_le_compat in Hq. rewrite Qopp_involutive in Hq. exact Hq.
    + symmetry. apply finite_value_floor.
Qed.

(** What a tick with time left shows on the progress bar. *)
Lemma update_ui_progress now is_active program self start :
  session_start self = Some start ->
  bool_float start = true ->
  (remaining_at now start <=? 0)%float = false ->
  progress_bar (fst (update_ui now is_active program self)) =
  match int_of_float (progress_at now start) with
  | inr v =>
      if ((v <? - 2147483648) || (2147483647 <? v))%bool then progress_bar self
      else if ((v <? 0) || (100 <? v))%bool then progress_bar self
      else v
  | inl _ => progress_bar self
  end.
Proof.
  intros Hs Ht Hr.
  rewrite update_ui_running_args by (unfold running; rewrite Hs; exact Ht).
  ui_steps; reflexivity.
Qed.

(** ** Rounding of the binary64 operations

    Shifting right keeps the exact value in the record ([represents]);
    rounding to nearest even then never passes a number of the grid that
    the value is closer to.  This bounds [x / 3600 * 100] for every double
    [x] in [0, 3600), and shows that [3600 - x] is positive. *)

Lemma pow2_pos e : (0 < pow2 e)%Q.
Proof. apply Qpower_0_lt. reflexivity. Qed.

Lemma pow2_add a b : (pow2 (a + b) == pow2 a * pow2 b)%Q.
Proof. apply Qpower_plus. discriminate. Qed.

Lemma pow2_succ e : (pow2 (e + 1) == 2 * pow2 e)%Q.
Proof. rewrite pow2_add. unfold pow2 at 2. rewrite Qpower_1_r. ring. Qed.

Lemma pow2_Z e : 0 <= e -> (pow2 e == inject_Z (2 ^ e))%Q.
Proof. intros He. unfold pow2. now rewrite Zpower_Qpower. Qed.

Lemma pow2_le a b : a <= b -> (pow2 a <= pow2 b)%Q.
Proof. intros H. apply Qpower_le_compat_l; [exact H | discriminate]. Qed.

Lemma pow2_lt a b : a < b -> (pow2 a < pow2 b)%Q.
Proof. intros H. apply Qpower_lt_compat_l; [exact H | reflexivity]. Qed.

Lemma pow2_lt_inv a b : (pow2 a < pow2 b)%Q -> a < b.
Proof. intros H. apply (Qpower_lt_compat_l_inv 2); [exact H | reflexivity]. Qed.

Lemma frac_ok_range r s f : frac_ok r s f -> (0 <= f /\ f < 1)%Q.
Proof. destruct r, s; cbn; intros H; lra. Qed.

Lemma inject_double p : (inject_Z (Z.pos p~0) == 2 * inject_Z (Z.pos p))%Q.
Proof. rewrite Pos2Z.inj_xO, inject_Z_mult. reflexivity. Qed.

Lemma inject_double_one p : (inject_Z (Z.pos p~1) == 2 * inject_Z (Z.pos p) + 1)%Q.
Proof. rewrite Pos2Z.inj_xI, inject_Z_plus, inject_Z_mult. reflexivity. Qed.

Lemma shr_1_represents mrs e V :
  represents mrs e V -> represents (shr_1 mrs) (e + 1) V.
Proof.
  destruct mrs as [m r s]. unfold represents. cbn [shr_m shr_r shr_s].
  intros [Hm (f & Hf & HV)].
  destruct m as [|[p|p|]|p]; cbn [shr_1 shr_m shr_r shr_s]; try lia.
  - split; [lia|]. exists (f * (1 # 2))%Q. split.
    + destruct r, s; cbn in *; lra.
    + rewrite HV, pow2_succ. change (inject_Z 0) with 0%Q. ring.
  - split; [lia|]. exists ((1 + f) * (1 # 2))%Q. split.
    + destruct r, s; cbn in *; lra.
    + rewrite HV, pow2_succ, inject_double_one. ring.
  - split; [lia|]. exists (f * (1 # 2))%Q. split.
    + destruct r, s; cbn in *; lra.
    + rewrite HV, pow2_succ, inject_double. ring.
  - split; [lia|]. exists ((1 + f) * (1 # 2))%Q. split.
    + destruct r, s; cbn in *; lra.
    + rewrite HV, pow2_succ. change (inject_Z 1) with 1%Q.
      change (inject_Z 0) with 0%Q. ring.
Qed.

Lemma iter_shr_1_represents n :
  forall mrs e V,
    represents mrs e V ->
    represents (iter_pos shr_1 n mrs) (e + Z.pos n) V.
Proof.
  induction n as [n IH|n IH|]; intros mrs e V H; cbn [iter_pos].
  - replace (e + Z.pos n~1) with (e + 1 + Z.pos n + Z.pos n) by lia.
    apply IH, IH, shr_1_represents, H.
  - replace (e + Z.pos n~0) with (e + Z.pos n + Z.pos n) by lia.
    apply IH, IH, H.
  - apply shr_1_represents, H.
Qed.

Lemma shr_represents mrs e n V :
  represents mrs e V ->
  represents (fst (shr mrs e n)) (snd (shr mrs e n)) V /\
  snd (shr mrs e n) = e + Z.max n 0.
Proof.
  intros H. destruct n as [|p|p]; cbn [shr fst snd].
  - split; [exact H | lia].
  - split; [now apply iter_shr_1_represents | lia].
  - split; [exact H | lia].
Qed.

Lemma shr_fexp_represents m e l V :
  represents (shr_record_of_loc m l) e V ->
  represents (fst (shr_fexp prec emax m e l)) (snd (shr_fexp prec emax m e l)) V /\
  snd (shr_fexp prec emax m e l) = Z.max e (fexp64 (Zdigits2 m + e)).
Proof.
  intros H. unfold shr_fexp.
  destruct (shr_represents _ e (fexp64 (Zdigits2 m + e) - e) V H) as [H1 H2].
  split; [exact H1|]. rewrite H2. lia.
Qed.

Lemma digits2_pos_size p : digits2_pos p = Pos.size p.
Proof. induction p; cbn; congruence. Qed.

Lemma Zdigits2_log2 n : 0 < n -> Zdigits2 n = Z.log2 n + 1.
Proof.
  destruct n as [|p|p]; try lia. intros _. cbn [Zdigits2].
  rewrite digits2_pos_size. destruct p; cbn; lia.
Qed.

Lemma Zdigits2_lt_pow2 n k : 0 <= n -> 0 <= k -> n < 2 ^ k -> Zdigits2 n <= k.
Proof.
  intros Hn Hk Hlt. destruct (Z.eq_dec n 0) as [->|Hnz]; [cbn; lia|].
  rewrite Zdigits2_log2 by lia.
  assert (Z.log2 n < k) by (apply Z.log2_lt_pow2; lia). lia.
Qed.

Lemma Zdigits2_ge_pow2 n : 0 < n -> 2 ^ (Zdigits2 n - 1) <= n.
Proof.
  intros Hn. rewrite Zdigits2_log2 by lia.
  replace (Z.log2 n + 1 - 1) with (Z.log2 n) by lia.
  now apply Z.log2_spec.
Qed.

Lemma inject_lt_half a b f :
  (0 <= f)%Q -> (inject_Z a + f < inject_Z b + (1 # 2))%Q -> a <= b.
Proof.
  intros Hf H. assert (Hlt : (inject_Z a < inject_Z (b + 1))%Q).
  { rewrite inject_Z_plus. change (inject_Z 1) with 1%Q. lra. }
  rewrite <- Zlt_Qlt in Hlt. lia.
Qed.

Lemma inject_lt_half_up a b f :
  ((1 # 2) <= f)%Q -> (inject_Z a + f < inject_Z b + (1 # 2))%Q -> a + 1 <= b.
Proof.
  intros Hf H. assert (Hlt : (inject_Z a < inject_Z b)%Q) by lra.
  rewrite <- Zlt_Qlt in Hlt. lia.
Qed.

Lemma round_nearest_even_le mrs e V b :
  represents mrs e V ->
  (V < (inject_Z b + (1 # 2)) * pow2 e)%Q ->
  0 <= round_nearest_even (shr_m mrs) (loc_of_shr_record mrs) <= b.
Proof.
  destruct mrs as [m r s]. unfold represents. cbn [shr_m shr_r shr_s].
  intros [Hm (f & Hf & HV)] Hlt.
  rewrite HV in Hlt. apply Qmult_lt_r in Hlt; [|apply pow2_pos].
  destruct r, s; cbn [loc_of_shr_record round_nearest_even]; cbn in Hf.
  - assert (m + 1 <= b) by (apply (inject_lt_half_up m b f); lra). lia.
  - assert (m + 1 <= b) by (apply (inject_lt_half_up m b f); lra).
    destruct (Z.even m); lia.
  - assert (m <= b) by (apply (inject_lt_half m b f); lra). lia.
  - assert (m <= b) by (apply (inject_lt_half m b f); lra). lia.
Qed.

Lemma represents_exact m e : 0 <= m ->
  represents (shr_record_of_loc m loc_Exact) e (scaled m e).
Proof.
  intros Hm. split; [exact Hm|]. exists 0%Q. split; [reflexivity|].
  cbn [shr_record_of_loc shr_m]. unfold scaled. ring.
Qed.

Lemma represents_lower mrs e V :
  represents mrs e V -> (scaled (shr_m mrs) e <= V)%Q.
Proof.
  intros [_ (f & Hf & HV)]. apply frac_ok_range in Hf.
  rewrite HV. unfold scaled.
  apply Qmult_le_compat_r; [lra | apply Qlt_le_weak, pow2_pos].
Qed.

Lemma scaled_le m n e : m <= n -> (scaled m e <= scaled n e)%Q.
Proof.
  intros H. unfold scaled.
  apply Qmult_le_compat_r; [now rewrite <- Zle_Qle | apply Qlt_le_weak, pow2_pos].
Qed.

Lemma binary_round_aux_at_most m e l V b :
  represents (shr_record_of_loc m l) e V ->
  let e1 := Z.max e (fexp64 (Zdigits2 m + e)) in
  (V < (inject_Z b + (1 # 2)) * pow2 e1)%Q ->
  e1 <= emax - prec ->
  0 <= emax - e1 ->
  b < 2 ^ (emax - e1) ->
  at_most (binary_round_aux prec emax false m e l) (scaled b e1).
Proof.
  intros Hrep e1 Hlt He1 Hk Hb. unfold binary_round_aux.
  destruct (shr_fexp_represents m e l V Hrep) as [H1 H2].
  destruct (shr_fexp prec emax m e l) as [mrs' e'] eqn:Hshr.
  cbn [fst snd] in H1, H2. fold e1 in H2. subst e'.
  pose proof (round_nearest_even_le mrs' e1 V b H1 Hlt) as HN.
  set (N := round_nearest_even (shr_m mrs') (loc_of_shr_record mrs')) in *.
  destruct (shr_fexp_represents N e1 loc_Exact (scaled N e1)
              (represents_exact N e1 (proj1 HN))) as [H3 H4].
  destruct (shr_fexp prec emax N e1 loc_Exact) as [mrs'' e''] eqn:Hshr2.
  cbn [fst snd] in H3, H4.
  pose proof (represents_lower _ _ _ H3) as Hlow.
  destruct H3 as [Hm'' _].
  destruct (shr_m mrs'') as [|m''|m''].
  - reflexivity.
  - assert (He'' : e'' <= emax - prec).
    { rewrite H4. apply Z.max_lub; [exact He1|].
      unfold fexp, emin. apply Z.max_lub; [|unfold emax, prec; lia].
      assert (Zdigits2 N <= emax - e1)
        by (apply Zdigits2_lt_pow2; lia).
      lia. }
    apply Z.leb_le in He''. rewrite He''. split; [reflexivity|].
    apply Qle_trans with (y := scaled N e1); [exact Hlow|].
    apply scaled_le. lia.
  - lia.
Qed.

Lemma inject_Z_nonzero n : n <> 0 -> ~ (inject_Z n == 0)%Q.
Proof. intros Hn E. unfold Qeq, inject_Z in E. cbn [Qnum Qden] in E. lia. Qed.

Lemma frac_lt_half r nb : 0 < nb -> 2 * r < nb ->
  (inject_Z r / inject_Z nb < 1 # 2)%Q.
Proof.
  intros Hnb H. apply Qlt_shift_div_r; [now rewrite <- (Zlt_Qlt 0)|].
  assert (Hq : (inject_Z (2 * r) < inject_Z nb)%Q) by now rewrite <- Zlt_Qlt.
  rewrite inject_Z_mult in Hq. change (inject_Z 2) with 2%Q in Hq. lra.
Qed.

Lemma frac_gt_half r nb : 0 < nb -> nb < 2 * r ->
  ((1 # 2) < inject_Z r / inject_Z nb)%Q.
Proof.
  intros Hnb H. apply Qlt_shift_div_l; [now rewrite <- (Zlt_Qlt 0)|].
  assert (Hq : (inject_Z nb < inject_Z (2 * r))%Q) by now rewrite <- Zlt_Qlt.
  rewrite inject_Z_mult in Hq. change (inject_Z 2) with 2%Q in Hq. lra.
Qed.

Lemma frac_eq_half r nb : 0 < nb -> 2 * r = nb ->
  (inject_Z r / inject_Z nb == 1 # 2)%Q.
Proof.
  intros Hnb H. subst nb. rewrite inject_Z_mult. change (inject_Z 2) with 2%Q.
  assert (Hr : ~ (inject_Z r == 0)%Q) by (apply inject_Z_nonzero; lia).
  field. exact Hr.
Qed.

Lemma frac_pos r nb : 0 < nb -> 0 < r -> (0 < inject_Z r / inject_Z nb)%Q.
Proof.
  intros Hnb Hr. apply Qlt_shift_div_l; [now rewrite <- (Zlt_Qlt 0)|].
  rewrite Qmult_0_l. now rewrite <- (Zlt_Qlt 0).
Qed.

Lemma frac_lt_one r nb : 0 < nb -> r < nb -> (inject_Z r / inject_Z nb < 1)%Q.
Proof.
  intros Hnb Hr. apply Qlt_shift_div_r; [now rewrite <- (Zlt_Qlt 0)|].
  rewrite Qmult_1_l. now rewrite <- Zlt_Qlt.
Qed.

Lemma new_location_frac nb r :
  0 < nb -> 0 <= r < nb ->
  forall q,
    frac_ok (shr_r (shr_record_of_loc q (new_location nb r)))
            (shr_s (shr_record_of_loc q (new_location nb r)))
            (inject_Z r / inject_Z nb).
Proof.
  intros Hnb Hr q. unfold new_location.
  destruct (Z.even nb) eqn:Heven;
    unfold new_location_even, new_location_odd;
    destruct (Z.eqb_spec r 0) as [->|Hr0];
    try (cbn; unfold Qdiv; ring).
  - destruct (Z.compare_spec (2 * r) nb) as [E|L|G];
      cbn [shr_record_of_loc shr_r shr_s frac_ok].
    + now apply frac_eq_half.
    + split; [apply frac_pos; lia | now apply frac_lt_half].
    + split; [now apply frac_gt_half | apply frac_lt_one; lia].
  - assert (Hodd : Z.odd nb = true) by (rewrite <- Z.negb_even, Heven; reflexivity).
    apply Z.odd_spec in Hodd. destruct Hodd as [k Hk].
    destruct (Z.compare_spec (2 * r + 1) nb) as [E|L|G];
      cbn [shr_record_of_loc shr_r shr_s frac_ok].
    + split; [apply frac_pos; lia | apply frac_lt_half; lia].
    + split; [apply frac_pos; lia | apply frac_lt_half; lia].
    + split; [apply frac_gt_half; lia | apply frac_lt_one; lia].
Qed.

Lemma scaled_pow2 m s e : 0 <= s ->
  (scaled (m * 2 ^ s) e == scaled m (s + e))%Q.
Proof.
  intros Hs. unfold scaled. rewrite inject_Z_mult, pow2_add, <- pow2_Z by exact Hs.
  ring.
Qed.

Lemma scaled_pos m e : 0 < m -> (0 < scaled m e)%Q.
Proof.
  intros Hm. unfold scaled.
  apply Qmult_lt_0_compat; [now rewrite <- (Zlt_Qlt 0) | apply pow2_pos].
Qed.

Lemma SFdiv_core_represents mx ex my ey :
  let '(q, e', l) := SFdiv_core_binary prec emax (Z.pos mx) ex (Z.pos my) ey in
  represents (shr_record_of_loc q l) e'
             (scaled (Z.pos mx) ex / scaled (Z.pos my) ey) /\
  e' = Z.min (fexp64 (Zdigits2 (Z.pos mx) + ex - (Zdigits2 (Z.pos my) + ey)))
             (ex - ey).
Proof.
  unfold SFdiv_core_binary.
  set (e' := Z.min (fexp64 (Zdigits2 (Z.pos mx) + ex - (Zdigits2 (Z.pos my) + ey)))
                   (ex - ey)).
  set (s := ex - ey - e').
  assert (Hs : 0 <= s) by (unfold s, e'; lia).
  set (m' := match s with
             | 0 => Z.pos mx
             | Z.pos _ => Z.shiftl (Z.pos mx) s
             | Z.neg _ => 0
             end).
  assert (Hm' : m' = Z.pos mx * 2 ^ s).
  { unfold m'. destruct s as [|p|p]; try lia.
    - now rewrite Z.shiftl_mul_pow2. }
  destruct (Z.div_eucl m' (Z.pos my)) as [q r] eqn:Hdiv.
  assert (Hqr : m' = Z.pos my * q + r /\ 0 <= r < Z.pos my).
  { pose proof (Z_div_mod m' (Z.pos my) eq_refl) as H. now rewrite Hdiv in H. }
  destruct Hqr as [Heq Hr].
  assert (Hq : 0 <= q).
  { assert (0 <= m') by (rewrite Hm'; apply Z.mul_nonneg_nonneg; [lia | apply Z.pow_nonneg; lia]).
    nia. }
  split; [|reflexivity]. split.
  - destruct (new_location (Z.pos my) r) as [|[]]; cbn; exact Hq.
  - exists (inject_Z r / inject_Z (Z.pos my))%Q. split.
    + apply new_location_frac; lia.
    + assert (Hsh : (shr_m (shr_record_of_loc q (new_location (Z.pos my) r))) = q)
        by (destruct (new_location (Z.pos my) r) as [|[]]; reflexivity).
      rewrite Hsh.
      assert (HV : (scaled (Z.pos mx) ex == scaled m' (e' + ey))%Q).
      { rewrite Hm', scaled_pow2 by exact Hs. unfold s.
        replace (ex - ey - e' + (e' + ey)) with ex by lia. reflexivity. }
      rewrite HV. unfold scaled. rewrite pow2_add, Heq.
      rewrite inject_Z_plus, inject_Z_mult.
      assert (~ (inject_Z (Z.pos my) == 0)%Q) by (apply inject_Z_nonzero; lia).
      assert (~ (pow2 ey == 0)%Q) by (pose proof (pow2_pos ey); lra).
      field. split; assumption.
Qed.

Lemma at_most_le x B B' : at_most x B -> (B <= B')%Q -> at_most x B'.
Proof.
  destruct x as [s|s| |s m e]; cbn; auto.
  intros [Hs Hle] HB. split; [exact Hs | now apply Qle_trans with (y := B)].
Qed.

Lemma scaled_lt_inv a b e : (scaled a e < scaled b e)%Q -> a < b.
Proof.
  unfold scaled. intros H. apply Qmult_lt_r in H; [|apply pow2_pos].
  now rewrite Zlt_Qlt.
Qed.

Lemma scaled_one e : (scaled 1 e == pow2 e)%Q.
Proof. unfold scaled. change (inject_Z 1) with 1%Q. ring. Qed.

Lemma scaled_pow2_only k e : 0 <= k -> (scaled (2 ^ k) e == pow2 (k + e))%Q.
Proof.
  intros Hk. rewrite <- (Z.mul_1_l (2 ^ k)), scaled_pow2 by exact Hk.
  apply scaled_one.
Qed.

(** A positive mantissa lies between the powers of two its width gives. *)
Lemma digits_lower m e : 0 < m -> (pow2 (Zdigits2 m - 1 + e) <= scaled m e)%Q.
Proof.
  intros Hm. pose proof (Zdigits2_ge_pow2 m Hm) as H.
  assert (Hd : 0 <= Zdigits2 m - 1)
    by (rewrite Zdigits2_log2 by lia; pose proof (Z.log2_nonneg m); lia).
  rewrite <- scaled_pow2_only by exact Hd. now apply scaled_le.
Qed.

Lemma digits_upper m e : 0 < m -> (scaled m e < pow2 (Zdigits2 m + e))%Q.
Proof.
  intros Hm.
  assert (Hd : 0 <= Zdigits2 m)
    by (rewrite Zdigits2_log2 by lia; pose proof (Z.log2_nonneg m); lia).
  rewrite <- scaled_pow2_only by exact Hd.
  unfold scaled. apply Qmult_lt_r; [apply pow2_pos|]. rewrite <- Zlt_Qlt.
  rewrite Zdigits2_log2 by lia. now apply Z.log2_spec.
Qed.

Lemma digits_scaled m e k :
  0 < m -> (scaled m e < pow2 k)%Q -> Zdigits2 m + e <= k.
Proof.
  intros Hm H. pose proof (digits_lower m e Hm) as Hl.
  assert (Hlt : (pow2 (Zdigits2 m - 1 + e) < pow2 k)%Q)
    by (apply Qle_lt_trans with (y := scaled m e); assumption).
  apply pow2_lt_inv in Hlt. lia.
Qed.

Lemma bounded_mantissa m e : bounded prec emax m e = true -> Z.pos m < 2 ^ 53.
Proof.
  unfold bounded, canonical_mantissa. intros H.
  apply andb_prop in H. destruct H as [H _]. apply Z.eqb_eq in H.
  unfold fexp in H.
  assert (Hd : Zdigits2 (Z.pos m) <= 53) by (cbn [Zdigits2]; unfold prec in H; lia).
  apply Z.lt_le_trans with (m := 2 ^ Zdigits2 (Z.pos m)).
  - rewrite Zdigits2_log2 by lia. apply Z.log2_spec. lia.
  - apply Z.pow_le_mono_r; lia.
Qed.

Lemma double_below_3600 m e :
  bounded prec emax m e = true ->
  (scaled (Z.pos m) e < 3600)%Q ->
  (scaled (Z.pos m) e <= scaled (3600 * 2 ^ 41 - 1) (-41))%Q.
Proof.
  intros Hb Hlt. destruct (Z_le_gt_dec (-41) e) as [He|He].
  - assert (Heq : (scaled (Z.pos m) e == scaled (Z.pos m * 2 ^ (e + 41)) (-41))%Q).
    { rewrite scaled_pow2 by lia. replace (e + 41 + -41) with e by lia. reflexivity. }
    rewrite Heq in *. apply scaled_le.
    assert (H3600 : (3600 == scaled (3600 * 2 ^ 41) (-41))%Q) by reflexivity.
    rewrite H3600 in Hlt. apply scaled_lt_inv in Hlt. lia.
  - pose proof (bounded_mantissa m e Hb) as Hm.
    apply Qle_trans with (y := pow2 11).
    + apply Qle_trans with (y := scaled (2 ^ 53) e).
      * apply scaled_le. lia.
      * rewrite scaled_pow2_only by lia. apply pow2_le. lia.
    + discriminate.
Qed.

Lemma grid_value c k e1 : e1 <= k ->
  (scaled (c * 2 ^ (k - e1)) e1 == scaled c k)%Q.
Proof.
  intros H. rewrite scaled_pow2 by lia. replace (k - e1 + e1) with k by lia.
  reflexivity.
Qed.

Lemma grid_no_overflow c k e1 :
  e1 <= k -> k <= 0 -> 0 < c < 2 ^ 53 -> c * 2 ^ (k - e1) < 2 ^ (emax - e1).
Proof.
  intros H Hk Hc.
  replace (emax - e1) with (emax - k + (k - e1)) by lia.
  rewrite Z.pow_add_r by (unfold emax; lia).
  apply Z.mul_lt_mono_pos_r; [apply Z.pow_pos_nonneg; lia|].
  apply Z.lt_le_trans with (m := 2 ^ 53); [lia|].
  apply Z.pow_le_mono_r; unfold emax; lia.
Qed.

(** Dividing a double below 3600 by 3600 gives a double below 1. *)
Lemma div_3600_below_1 m e :
  bounded prec emax m e = true ->
  (scaled (Z.pos m) e < 3600)%Q ->
  at_most (SFdiv prec emax (S754_finite false m e) sf_3600) below_1.
Proof.
  intros Hb Hlt. unfold sf_3600, SFdiv. cbn [xorb].
  pose proof (SFdiv_core_represents m e 7916483719987200 (-41)) as Hcore.
  destruct (SFdiv_core_binary prec emax (Z.pos m) e
              (Z.pos 7916483719987200) (-41)) as [[q e'] l].
  destruct Hcore as [Hrep He'].
  set (V := (scaled (Z.pos m) e / scaled (Z.pos 7916483719987200) (-41))%Q) in *.
  assert (HV : (V < below_1)%Q).
  { pose proof (double_below_3600 m e Hb Hlt) as Hx.
    assert (H3600 : (scaled (Z.pos 7916483719987200) (-41) == 3600)%Q) by reflexivity.
    unfold V. rewrite H3600.
    apply Qle_lt_trans with (y := (scaled (3600 * 2 ^ 41 - 1) (-41) / 3600)%Q).
    - apply Qmult_le_compat_r; [exact Hx | discriminate].
    - reflexivity. }
  assert (Hd : Zdigits2 (Z.pos m) + e <= 12).
  { apply digits_scaled; [lia|].
    apply Qlt_trans with (y := 3600%Q); [exact Hlt | reflexivity]. }
  assert (He'53 : e' <= -53).
  { rewrite He'. change (Zdigits2 (Z.pos 7916483719987200) + -41) with 12.
    unfold fexp, emin, prec, emax. lia. }
  pose proof (represents_lower _ _ _ Hrep) as Hlow.
  assert (Hq : 0 <= q) by (destruct Hrep as [Hq _];
                          destruct l as [|[]]; exact Hq).
  assert (Hshr : shr_m (shr_record_of_loc q l) = q)
    by (destruct l as [|[]]; reflexivity).
  rewrite Hshr in Hlow.
  set (e1 := Z.max e' (fexp64 (Zdigits2 q + e'))).
  assert (He1 : e1 <= -53).
  { unfold e1. apply Z.max_lub; [exact He'53|].
    destruct (Z.eq_dec q 0) as [->|Hq0].
    - cbn [Zdigits2]. unfold fexp, emin, prec, emax. lia.
    - assert (Zdigits2 q + e' <= 0).
      { apply digits_scaled; [lia|].
        apply Qle_lt_trans with (y := V); [exact Hlow|].
        apply Qlt_trans with (y := below_1); [exact HV | reflexivity]. }
      unfold fexp, emin, prec, emax. lia. }
  apply at_most_le with (B := scaled ((2 ^ 53 - 1) * 2 ^ (-53 - e1)) e1).
  - apply (binary_round_aux_at_most q e' l V); fold e1.
    + exact Hrep.
    + apply Qlt_le_trans with (y := below_1); [exact HV|].
      unfold below_1. rewrite <- (grid_value (2 ^ 53 - 1) (-53) e1) by exact He1.
      unfold scaled at 1. apply Qmult_le_compat_r;
        [lra | apply Qlt_le_weak, pow2_pos].
    + unfold emax, prec. lia.
    + unfold emax. lia.
    + apply grid_no_overflow; lia.
  - unfold below_1. rewrite grid_value by exact He1. apply Qle_refl.
Qed.

(** Multiplying a double below 1 by 100 gives a double below 100. *)
Lemma mul_100_below_100 m e :
  (scaled (Z.pos m) e <= below_1)%Q ->
  at_most (SFmul prec emax (S754_finite false m e) sf_100) below_100.
Proof.
  intros Hle. unfold sf_100, SFmul. cbn [xorb].
  set (P := Z.pos (m * 7036874417766400)).
  set (e0 := e + -46).
  set (V := scaled P e0).
  assert (HV : (V == scaled (Z.pos m) e * 100)%Q).
  { unfold V, P, e0, scaled. rewrite Pos2Z.inj_mul, inject_Z_mult, pow2_add.
    assert (H100 : (inject_Z (Z.pos 7036874417766400) * pow2 (-46) == 100)%Q)
      by reflexivity.
    rewrite <- H100. ring. }
  assert (HVle : (V <= below_1 * 100)%Q).
  { rewrite HV. apply Qmult_le_compat_r; [exact Hle | discriminate]. }
  assert (He : e < 0).
  { apply pow2_lt_inv. apply Qle_lt_trans with (y := scaled (Z.pos m) e).
    - rewrite <- scaled_one. apply scaled_le. lia.
    - apply Qle_lt_trans with (y := below_1); [exact Hle | reflexivity]. }
  assert (Hd : Zdigits2 P + e0 <= 7).
  { apply digits_scaled; [unfold P; lia|]. fold V.
    apply Qle_lt_trans with (y := (below_1 * 100)%Q); [exact HVle | reflexivity]. }
  set (e1 := Z.max e0 (fexp64 (Zdigits2 P + e0))).
  assert (He1 : e1 <= -46).
  { unfold e1, e0, fexp, emin, prec, emax. lia. }
  apply at_most_le with (B := scaled ((25 * 2 ^ 48 - 1) * 2 ^ (-46 - e1)) e1).
  - apply (binary_round_aux_at_most P e0 loc_Exact V); fold e1.
    + apply represents_exact. unfold P. lia.
    + assert (Hgrid : ((inject_Z ((25 * 2 ^ 48 - 1) * 2 ^ (-46 - e1)) + (1 # 2))
                       * pow2 e1 == below_100 + (1 # 2) * pow2 e1)%Q).
      { unfold below_100.
        rewrite <- (grid_value (25 * 2 ^ 48 - 1) (-46) e1) by exact He1.
        unfold scaled. ring. }
      rewrite Hgrid.
      destruct (Z.eq_dec e1 (-46)) as [E|NE].
      * rewrite E. apply Qle_lt_trans with (y := (below_1 * 100)%Q);
          [exact HVle | reflexivity].
      * assert (Hsmall : Zdigits2 P + e0 <= 6).
        { unfold e1, e0, fexp, emin, prec, emax in *. lia. }
        apply Qlt_trans with (y := below_100).
        -- apply Qlt_le_trans with (y := pow2 6).
           ++ apply Qlt_le_trans with (y := pow2 (Zdigits2 P + e0)).
              ** apply digits_upper. unfold P. lia.
              ** now apply pow2_le.
           ++ discriminate.
        -- pose proof (pow2_pos e1). lra.
    + unfold emax, prec. lia.
    + unfold emax. lia.
    + apply grid_no_overflow; [exact He1 | lia | lia].
  - unfold below_100. rewrite grid_value by exact He1. apply Qle_refl.
Qed.

Lemma finite_value_scaled m e : (finite_value m e == scaled (Z.pos m) e)%Q.
Proof.
  unfold finite_value, scaled. destruct (0 <=? e) eqn:He.
  - apply Z.leb_le in He. rewrite inject_Z_mult, pow2_Z by exact He. reflexivity.
  - apply Z.leb_gt in He. destruct e as [|p|p]; try lia.
    cbn [Z.opp Z.to_pos]. unfold pow2.
    change (2 ^ Z.neg p)%Q with (/ (2 ^ Z.pos p))%Q.
    rewrite <- (Zpower_Qpower 2 (Z.pos p)) by lia.
    rewrite <- Pos2Z.inj_pow. unfold Qeq, Qmult, Qinv, inject_Z.
    cbn [Qnum Qden]. lia.
Qed.

(** The double-precision ratio of a double in [0, 3600) lies in [0, 100). *)
Lemma progress_ratio_range x e :
  Q_of_float x = Some e -> (0 <= e)%Q -> (e < 3600)%Q ->
  exists p,
    Q_of_float (x / max_duration * 100)%float = Some p /\
    (0 <= p)%Q /\ (p < 100)%Q.
Proof.
  intros Hx He0 He1.
  assert (Hspec : Prim2SF (x / max_duration * 100)%float
                  = SFmul prec emax (SFdiv prec emax (Prim2SF x) sf_3600) sf_100).
  { rewrite mul_spec, div_spec. reflexivity. }
  pose proof (Prim2SF_valid x) as Hvalid.
  unfold Q_of_float in *. rewrite Hspec.
  destruct (Prim2SF x) as [s|s| |s m ex]; try discriminate.
  - exists 0%Q. cbn. split; [reflexivity|]. split; [apply Qle_refl | reflexivity].
  - injection Hx as Hx. cbn [valid_binary] in Hvalid.
    assert (Hs : s = false).
    { destruct s; [|reflexivity]. exfalso.
      pose proof (scaled_pos (Z.pos m) ex eq_refl) as Hpos.
      rewrite <- finite_value_scaled in Hpos. rewrite <- Hx in He0. lra. }
    subst s. rewrite <- Hx, finite_value_scaled in He1.
    pose proof (div_3600_below_1 m ex Hvalid He1) as Hdiv.
    destruct (SFdiv prec emax (S754_finite false m ex) sf_3600)
      as [s1|s1| |s1 m1 e1]; cbn [at_most] in Hdiv; try contradiction.
    + exists 0%Q. cbn. split; [reflexivity|]. split; [apply Qle_refl | reflexivity].
    + destruct Hdiv as [-> Hle].
      pose proof (mul_100_below_100 m1 e1 Hle) as Hmul.
      destruct (SFmul prec emax (S754_finite false m1 e1) sf_100)
        as [s2|s2| |s2 m2 e2]; cbn [at_most] in Hmul; try contradiction.
      * exists 0%Q. split; [reflexivity|]. split; [apply Qle_refl | reflexivity].
      * destruct Hmul as [-> Hle2]. exists (finite_value m2 e2).
        split; [reflexivity|]. rewrite finite_value_scaled. split.
        -- apply Qlt_le_weak, scaled_pos. lia.
        -- apply Qle_lt_trans with (y := below_100); [exact Hle2 | reflexivity].
Qed.

(** *** Subtraction from 3600 *)

Lemma round_nearest_even_ge mrs :
  0 <= shr_m mrs ->
  shr_m mrs <= round_nearest_even (shr_m mrs) (loc_of_shr_record mrs).
Proof.
  destruct mrs as [m [] []]; cbn; intros Hm; try lia.
  destruct (Z.even m); lia.
Qed.

(** A shift that stays within the width of a mantissa leaves it non-zero. *)
Lemma shr_fexp_nonzero m e l V :
  0 < m -> emin prec emax <= e ->
  represents (shr_record_of_loc m l) e V ->
  (scaled m e <= V)%Q ->
  0 < shr_m (fst (shr_fexp prec emax m e l)).
Proof.
  intros Hm He Hrep Hlow.
  destruct (shr_fexp_represents m e l V Hrep) as [H1 H2].
  set (mrs := fst (shr_fexp prec emax m e l)) in *.
  set (e1 := snd (shr_fexp prec emax m e l)) in *.
  destruct H1 as [Hm1 (f & Hf & HV)].
  destruct (Z.eq_dec (shr_m mrs) 0) as [E|NE]; [exfalso | lia].
  apply frac_ok_range in Hf.
  assert (Hlt : (scaled m e < pow2 e1)%Q).
  { apply Qle_lt_trans with (y := V); [exact Hlow|].
    rewrite HV, E. change (inject_Z 0) with 0%Q.
    setoid_replace (pow2 e1) with (1 * pow2 e1)%Q at 2 by ring.
    apply Qmult_lt_r; [apply pow2_pos | lra]. }
  apply digits_scaled in Hlt; [|exact Hm].
  assert (Hd : 1 <= Zdigits2 m)
    by (rewrite Zdigits2_log2 by lia; pose proof (Z.log2_nonneg m); lia).
  unfold fexp, emin, prec, emax in *. lia.
Qed.

Lemma binary_round_aux_positive m e :
  0 < m -> emin prec emax <= e ->
  is_positive (binary_round_aux prec emax false m e loc_Exact).
Proof.
  intros Hm He. unfold binary_round_aux.
  pose proof (represents_exact m e (Z.lt_le_incl _ _ Hm)) as Hrep.
  pose proof (shr_fexp_nonzero m e loc_Exact _ Hm He Hrep (Qle_refl _)) as Hnz.
  destruct (shr_fexp_represents m e loc_Exact _ Hrep) as [H1 H2].
  destruct (shr_fexp prec emax m e loc_Exact) as [mrs' e'].
  cbn [fst snd] in *.
  pose proof (round_nearest_even_ge mrs' (proj1 H1)) as HN.
  set (N := round_nearest_even (shr_m mrs') (loc_of_shr_record mrs')) in *.
  assert (HNpos : 0 < N) by lia.
  assert (He' : emin prec emax <= e') by (rewrite H2; lia).
  pose proof (represents_exact N e' (Z.lt_le_incl _ _ HNpos)) as Hrep2.
  pose proof (shr_fexp_nonzero N e' loc_Exact _ HNpos He' Hrep2 (Qle_refl _))
    as Hnz2.
  destruct (shr_fexp prec emax N e' loc_Exact) as [mrs'' e''].
  cbn [fst] in Hnz2.
  destruct (shr_m mrs'') as [|m''|m'']; try lia.
  destruct (e'' <=? emax - prec); exact I.
Qed.

Lemma iter_xO_value m k : Z.pos (Pos.iter xO m k) = Z.pos m * 2 ^ Z.pos k.
Proof.
  induction k as [|k IH] using Pos.peano_ind.
  - cbn. lia.
  - rewrite Pos.iter_succ, Pos2Z.inj_xO, IH, Pos2Z.inj_succ.
    rewrite Z.pow_succ_r by lia. lia.
Qed.

Lemma shl_align_value m e e' :
  e' <= e ->
  Z.pos (fst (shl_align m e e')) = Z.pos m * 2 ^ (e - e') /\
  snd (shl_align m e e') = e'.
Proof.
  intros H. unfold shl_align.
  destruct (e' - e) as [|d|d] eqn:Hd; cbn [fst snd]; try lia.
  - replace (e - e') with 0 by lia. split; lia.
  - rewrite iter_xO_value. replace (e - e') with (Z.pos d) by lia. split; lia.
Qed.

Lemma shl_align_exponent m e e' :
  emin prec emax <= e -> emin prec emax <= e' ->
  emin prec emax <= snd (shl_align m e e').
Proof.
  intros H H'. unfold shl_align. destruct (e' - e); cbn [snd]; lia.
Qed.

Lemma binary_round_positive m e :
  emin prec emax <= e -> is_positive (binary_round prec emax false m e).
Proof.
  intros He. unfold binary_round.
  pose proof (shl_align_exponent m e (fexp64 (Z.pos (digits2_pos m) + e)) He)
    as Hexp.
  destruct (shl_align m e (fexp64 (Z.pos (digits2_pos m) + e))) as [mz ez].
  cbn [snd] in Hexp. apply binary_round_aux_positive; [lia|].
  apply Hexp. unfold fexp. lia.
Qed.

Lemma bounded_exponent m e : bounded prec emax m e = true -> emin prec emax <= e.
Proof.
  unfold bounded, canonical_mantissa. intros H.
  apply andb_prop in H. destruct H as [H _]. apply Z.eqb_eq in H.
  unfold fexp in H. lia.
Qed.

(** 3600 minus a double below 3600 is positive. *)
Lemma sub_3600_positive m e :
  bounded prec emax m e = true ->
  (scaled (Z.pos m) e < 3600)%Q ->
  is_positive (SFsub prec emax sf_3600 (S754_finite false m e)).
Proof.
  intros Hb Hlt. unfold sf_3600, SFsub. cbn [cond_Zopp].
  pose proof (bounded_exponent m e Hb) as He.
  set (ez := Z.min (-41) e).
  destruct (shl_align_value 7916483719987200 (-41) ez) as [Ha _];
    [unfold ez; lia|].
  destruct (shl_align_value m e ez) as [Hx _]; [unfold ez; lia|].
  rewrite Ha, Hx.
  assert (Hdiff : 0 < Z.pos 7916483719987200 * 2 ^ (-41 - ez)
                      - Z.pos m * 2 ^ (e - ez)).
  { assert (H1 : (scaled (Z.pos m * 2 ^ (e - ez)) ez
                  < scaled (Z.pos 7916483719987200 * 2 ^ (-41 - ez)) ez)%Q).
    { rewrite !scaled_pow2 by (unfold ez; lia).
      replace (e - ez + ez) with e by lia.
      replace (-41 - ez + ez) with (-41) by lia.
      apply Qlt_le_trans with (y := 3600%Q); [exact Hlt | discriminate]. }
    apply scaled_lt_inv in H1. lia. }
  destruct (Z.pos 7916483719987200 * 2 ^ (-41 - ez) - Z.pos m * 2 ^ (e - ez))
    as [|d|d]; try lia.
  cbn [binary_normalize]. apply binary_round_positive.
  unfold ez, emin, prec, emax in *. lia.
Qed.

(** The test of line 152 fails for every elapsed time in [0, 3600). *)
Lemma not_expired_below_3600 x e :
  Q_of_float x = Some e -> (0 <= e)%Q -> (e < 3600)%Q ->
  (max_duration - x <=? 0)%float = false.
Proof.
  intros Hx He0 He1.
  rewrite leb_spec, sub_spec.
  change (Prim2SF max_duration) with sf_3600.
  change (Prim2SF 0) with (S754_zero false).
  pose proof (Prim2SF_valid x) as Hvalid.
  unfold Q_of_float in Hx.
  destruct (Prim2SF x) as [s|s| |s m ex]; try discriminate.
  - reflexivity.
  - injection Hx as Hx. cbn [valid_binary] in Hvalid.
    assert (Hs : s = false).
    { destruct s; [|reflexivity]. exfalso.
      pose proof (scaled_pos (Z.pos m) ex eq_refl) as Hpos.
      rewrite <- finite_value_scaled in Hpos. rewrite <- Hx in He0. lra. }
    subst s. rewrite <- Hx, finite_value_scaled in He1.
    pose proof (sub_3600_positive m ex Hvalid He1) as Hpos.
    unfold SF64sub.
    destruct (SFsub prec emax sf_3600 (S754_finite false m ex))
      as [s1|[]| |[] m1 e1]; cbn [is_positive] in Hpos; try contradiction;
      reflexivity.
Qed.

(** ** The expiry tick *)

(** A successful poll of a session whose time is up: the whole callback. *)
Lemma tick_expiry t rows self start :
  fetched t = inr rows ->
  session_start self = Some start ->
  bool_float start = true ->
  (remaining_at (clock t) start <=? 0)%float = true ->
  check_database_activity t self =
  mk_ui (server_name self) (database_name self) None false
        "Time's up! Session completed." (program_label self)
        (time_label self) (progress_bar self)
        (notifications self ++ [completion_notice])%list (error_log self).
Proof.
  intros Hf Hs Ht Hr. rewrite (tick_fetched _ _ _ Hf).
  now rewrite (update_ui_expiry _ _ _ _ _ Hs Ht Hr).
Qed.

(** ** Ticks of a session that has time left *)

Lemma tick_fetched_view t rows self :
  fetched t = inr rows ->
  timer_view (check_database_activity t self) =
  timer_view (fst (update_ui (clock t) (bool_list rows) (program_of rows) self)).
Proof.
  intros Hf. rewrite (tick_fetched _ _ _ Hf).
  destruct (update_ui _ _ _ _) as [u [e|[]]]; reflexivity.
Qed.

Lemma tick_countdown t rows self start :
  fetched t = inr rows ->
  session_start self = Some start ->
  bool_float start = true ->
  (remaining_at (clock t) start <=? 0)%float = false ->
  let due := ((remaining_at (clock t) start <=? 300)%float
              && negb (notification_sent self))%bool in
  let u := check_database_activity t self in
  session_start u = Some start /\
  program_label u = program_label self /\
  notification_sent u = (notification_sent self || due)%bool /\
  notifications u =
    (if due then notifications self ++ [five_minute_notice]
     else notifications self)%list.
Proof.
  intros Hf Hs Ht Hr due u.
  pose proof (tick_fetched_view t rows self Hf) as Hv.
  destruct (update_ui_countdown (clock t) (bool_list rows) (program_of rows)
              self start Hs Ht Hr) as (H1 & _ & H3 & _ & H5 & H6).
  unfold timer_view in Hv. injection Hv as V1 V2 V3 V4 V5 V6.
  subst u due. repeat split; congruence.
Qed.

(** ** The program label during a session *)

Lemma tick_keeps_program_label t self :
  running self = true ->
  program_label (check_database_activity t self) = program_label self.
Proof.
  intros Hrun.
  destruct (tick_effect t self) as [_ _ E _ | _ _ _ _ E | _ _ _ E].
  - now destruct (E Hrun).
  - now destruct (E Hrun).
  - exact (E Hrun).
Qed.

(** Until a completion is announced the session and its label stay. *)
Lemma run_keeps_program_label ticks :
  forall self d,
    running self = true ->
    notifications (run ticks self) = (notifications self ++ d)%list ->
    ~ In completion_notice d ->
    program_label (run ticks self) = program_label self.
Proof.
  induction ticks as [|t ticks IH]; intros self d Hrun Hd Hno.
  - reflexivity.
  - rewrite run_cons in *.
    set (u := check_database_activity t self) in *.
    destruct (run_notifications_grow ticks u) as [d' Hd'].
    assert (Hlabel : program_label u = program_label self)
      by (apply tick_keeps_program_label; exact Hrun).
    rewrite <- Hlabel.
    destruct (tick_effect t self) as [E1 _ E3 _ | E1 _ _ E4 _ | E1 _ _ _];
      fold u in E1; rewrite E1 in Hd'.
    + apply (IH u d).
      * destruct (E3 Hrun) as [Hs _]. fold u in Hs.
        unfold running in *. now rewrite Hs.
      * now rewrite E1.
      * exact Hno.
    + apply (IH u d'); [exact E4 | now rewrite E1, Hd' |].
      rewrite Hd', <- app_assoc in Hd. apply app_inv_head in Hd. subst d.
      intros Hin. apply Hno. right. exact Hin.
    + exfalso. rewrite Hd', <- app_assoc in Hd. apply app_inv_head in Hd.
      subst d. apply Hno. left. reflexivity.
Qed.

(** * The claims *)

(** C1: on every tick of a running session at which the remaining time is
    at most 0, exactly one completion notification ("Time's up! 60 minutes
    completed.") is sent, [session_start] becomes None and the one-shot flag
    becomes false: the timer is idle again. *)
Theorem expiry_fires_completion_and_resets t rows self start :
  fetched t = inr rows ->
  session_start self = Some start ->
  bool_float start = true ->
  (remaining_at (clock t) start <=? 0)%float = true ->
  let u := check_database_activity t self in
  notifications u =
    (notifications self ++
     [mk_notification "Database Monitor"
                      "Time's up! 60 minutes completed." 10])%list /\
  session_start u = None /\
  notification_sent u = false /\
  running u = false.
Proof.
  intros Hf Hs Ht Hr u. subst u.
  rewrite (tick_expiry _ _ _ _ Hf Hs Ht Hr). repeat split.
Qed.

Lemma expiry_fires_completion_and_resets_witness :
  let u := check_database_activity (tick_at [row1] 1700003600%float) started in
  notifications u = [completion_notice] /\
  session_start u = None /\
  notification_sent u = false /\
  running u = false.
Proof.
  apply (expiry_fires_completion_and_resets
           (tick_at [row1] 1700003600%float) [row1] started
           1700000000%float);
    vm_compute; reflexivity.
Defined.

(** C2: the "5 minutes remaining!" notification is sent on the first tick of
    a running session at which 0 < remaining <= 300 is seen with the one-shot
    flag unset; the flag is then set; and in the whole notification history
    of the program two such warnings are always separated by a completion,
    so a session gets the warning at most once. *)
Theorem five_minute_warning_fires_once server database history t rows start :
  let self := run history (init server database) in
  fetched t = inr rows ->
  session_start self = Some start ->
  bool_float start = true ->
  (remaining_at (clock t) start <=? 0)%float = false ->
  (remaining_at (clock t) start <=? 300)%float = true ->
  notification_sent self = false ->
  let u := check_database_activity t self in
  notifications u =
    (notifications self ++
     [mk_notification "Database Monitor" "5 minutes remaining!" 10])%list /\
  notification_sent u = true /\
  forall rest l1 l2 l3,
    notifications (run rest u) =
      (l1 ++ five_minute_notice :: l2 ++ five_minute_notice :: l3)%list ->
    In completion_notice l2.
Proof.
  intros self Hf Hs Ht Hr Hw Hsent u.
  destruct (tick_countdown t rows self start Hf Hs Ht Hr) as (_ & _ & H5 & H6).
  rewrite Hw, Hsent in H5, H6. cbn [andb orb negb] in H5, H6.
  split; [exact H6|]. split; [exact H5|].
  intros rest l1 l2 l3 Hsplit.
  assert (Hrep : flag_replays (run rest u)).
  { subst u self. rewrite <- run_snoc, <- run_app.
    apply run_flag_replays. reflexivity. }
  unfold flag_replays in Hrep. rewrite Hsplit in Hrep.
  exact (replay_two_warnings _ _ _ _ _ Hrep).
Qed.

Lemma five_minute_warning_fires_once_witness :
  let u := check_database_activity (tick_at [row1] 1700003300%float) started in
  notifications u = [five_minute_notice] /\
  notification_sent u = true /\
  forall rest l1 l2 l3,
    notifications (run rest u) =
      (l1 ++ five_minute_notice :: l2 ++ five_minute_notice :: l3)%list ->
    In completion_notice l2.
Proof.
  apply (five_minute_warning_fires_once "srv" "train_test"
           [tick_at [row1] 1700000000%float]
           (tick_at [row1] 1700003300%float) [row1] 1700000000%float);
    vm_compute; reflexivity.
Defined.

(** C3, as the code has it: a tick that reports no activity does not end a
    running session.  While time is left the start time is kept and the
    countdown goes on; only the expiry tick returns the timer to idle. *)
Theorem inactivity_keeps_session_running t self start :
  fetched t = inr [] ->
  session_start self = Some start ->
  bool_float start = true ->
  (remaining_at (clock t) start <=? 0)%float = false ->
  session_start (check_database_activity t self) = Some start /\
  running (check_database_activity t self) = true.
Proof.
  intros Hf Hs Ht Hr.
  destruct (tick_countdown t [] self start Hf Hs Ht Hr) as (H1 & _).
  split; [exact H1|]. unfold running. rewrite H1. exact Ht.
Qed.

Lemma inactivity_keeps_session_running_witness :
  session_start (check_database_activity (tick_at [] 1700000010%float) started)
  = Some 1700000000%float /\
  running (check_database_activity (tick_at [] 1700000010%float) started)
  = true.
Proof.
  apply (inactivity_keeps_session_running
           (tick_at [] 1700000010%float) started 1700000000%float);
    vm_compute; reflexivity.
Defined.

(** C3, as stated, fails: ten seconds into a session (elapsed < 3600) a poll
    that finds no rows reports no activity, and the timer is not idle
    afterwards. *)
Lemma inactivity_ends_session_counterexample :
  let t := tick_at [] 1700000010%float in
  session_start started = Some 1700000000%float /\
  running started = true /\
  (elapsed_at (clock t) 1700000000 <? max_duration)%float = true /\
  report [] = inr (false, Some "Unknown") /\
  session_start (check_database_activity t started) = Some 1700000000%float /\
  session_start (check_database_activity t started) <> None.
Proof.
  vm_compute. repeat split. discriminate.
Qed.

(** C4: a failure of the connection or of the query is caught inside the
    callback: it is logged and shown as "Error: ..." on the status line, and
    the timer (start time, one-shot flag, progress bar, remaining-time label,
    program label, notifications) is exactly as before the tick.  The
    callback returns a monitor in every case, so nothing propagates. *)
Theorem poll_failure_leaves_timer_untouched e now self :
  let u := check_database_activity (mk_tick (inl e) now) self in
  session_start u = session_start self /\
  notification_sent u = notification_sent self /\
  progress_bar u = progress_bar self /\
  time_label u = time_label self /\
  program_label u = program_label self /\
  notifications u = notifications self /\
  status_label u = "Error: " ++ str_exn e /\
  error_log u =
    (error_log self ++ [("Connection error: " ++ str_exn e)%string])%list.
Proof.
  intros u. subst u.
  rewrite (tick_failed (mk_tick (inl e) now) e self eq_refl).
  repeat split.
Qed.

(** C5, as the code has it: for every elapsed time in [0, 3600) seconds of
    a running session, the progress bar shows floor(p), where p is the
    double-precision result of (elapsed / 3600) * 100 as line 165 computes
    it, and the value shown lies in [0, 100). *)
Theorem progress_is_floor_of_computed_ratio now is_active program self start e :
  session_start self = Some start ->
  bool_float start = true ->
  Q_of_float (elapsed_at now start) = Some e ->
  (0 <= e)%Q -> (e < 3600)%Q ->
  let v := progress_bar (fst (update_ui now is_active program self)) in
  exists p,
    Q_of_float (progress_at now start) = Some p /\
    v = Qfloor p /\
    0 <= v < 100.
Proof.
  intros Hs Ht He He0 He1 v.
  destruct (progress_ratio_range (elapsed_at now start) e He He0 He1)
    as (p & Hp & Hp0 & Hp100).
  pose proof (not_expired_below_3600 (elapsed_at now start) e He He0 He1) as Hr.
  exists p. split; [exact Hp|].
  assert (Hrange : 0 <= Qfloor p < 100).
  { split.
    - change 0 with (Qfloor 0). now apply Qfloor_resp_le.
    - apply Z.lt_nge. intros Hge.
      apply (Qlt_irrefl p). apply Qlt_le_trans with (y := 100%Q); [exact Hp100|].
      apply Qle_trans with (y := inject_Z (Qfloor p)); [|apply Qfloor_le].
      change 100%Q with (inject_Z 100). rewrite <- Zle_Qle. exact Hge. }
  assert (Hv : v = Qfloor p).
  { subst v. rewrite (update_ui_progress _ _ _ _ _ Hs Ht Hr).
    unfold progress_at in Hp |- *.
    rewrite (int_of_float_floor _ _ Hp Hp0).
    replace ((Qfloor p <? - 2147483648) || (2147483647 <? Qfloor p))%bool
      with false by (symmetry; apply orb_false_iff; lia).
    replace ((Qfloor p <? 0) || (100 <? Qfloor p))%bool
      with false by (symmetry; apply orb_false_iff; lia).
    reflexivity. }
  split; [exact Hv | rewrite Hv; exact Hrange].
Qed.

Lemma progress_is_floor_of_computed_ratio_witness :
  let now := mk_clock 1700001044%float 1700001044%float in
  let v := progress_bar (fst (update_ui now false None started)) in
  exists p,
    Q_of_float (progress_at now 1700000000) = Some p /\
    v = Qfloor p /\
    0 <= v < 100.
Proof.
  apply (progress_is_floor_of_computed_ratio
           (mk_clock 1700001044%float 1700001044%float) false None started
           1700000000%float (1044 * 2 ^ 42 # 2 ^ 42)%Q);
    vm_compute; solve [reflexivity | discriminate].
Defined.

(** C5, as stated, fails: 1044 s into a session the exact ratio is 29 per
    cent, but the double-precision product is 28.999999999999996 and the
    progress bar shows 28. *)
Lemma progress_floor_counterexample :
  let now := mk_clock 1700001044%float 1700001044%float in
  let e := (1044 * 2 ^ 42 # 2 ^ 42)%Q in
  session_start started = Some 1700000000%float /\
  (remaining_at now 1700000000 <=? 0)%float = false /\
  Q_of_float (elapsed_at now 1700000000) = Some e /\
  (e == 1044)%Q /\
  Qfloor (e / 3600 * 100) = 29 /\
  progress_bar (fst (update_ui now true (Some "sqlcmd") started)) = 28.
Proof.
  vm_compute. repeat split.
Qed.

(** C6: in every state the program can reach, an idle timer
    ([session_start] None) has its one-shot flag unset. *)
Theorem idle_implies_flag_unset server database history :
  let u := run history (init server database) in
  session_start u = None -> notification_sent u = false.
Proof.
  intros u Hidle.
  apply (run_flag_down history (init server database)).
  - intros _. reflexivity.
  - unfold running. fold u. now rewrite Hidle.
Qed.

Lemma idle_implies_flag_unset_witness :
  notification_sent
    (run [tick_at [row1] 1700000000%float;
          tick_at [row1] 1700003301.5%float;
          tick_at [row1] 1700003600%float] fresh) = false.
Proof.
  apply (idle_implies_flag_unset "srv" "train_test"
           [tick_at [row1] 1700000000%float;
            tick_at [row1] 1700003301.5%float;
            tick_at [row1] 1700003600%float]).
  vm_compute. reflexivity.
Defined.

(** C7: when the poller reports activity while the timer is idle
    ([session_start] None), [update_ui] captures the current time as the
    start time and writes the status line and the reported program name;
    the session is then in progress, provided the clock read that follows
    does not already put it past its 60 minutes. *)
Theorem activity_starts_session now program self :
  session_start self = None ->
  (remaining_at now (at_detect now) <=? 0)%float = false ->
  let u := fst (update_ui now true program self) in
  session_start u = Some (at_detect now) /\
  status_label u = "Activity detected! Monitoring..." /\
  program_label u = "Program: " ++ format_pystr program.
Proof.
  intros Hidle Hr u. subst u.
  rewrite update_ui_begin by (unfold running; now rewrite Hidle).
  destruct (bool_float (at_detect now)) eqn:Ht.
  - destruct (update_ui_countdown now false program (begun now program self)
                (at_detect now) eq_refl Ht Hr) as (H1 & H2 & H3 & _).
    repeat split; assumption.
  - rewrite update_ui_idle by exact Ht. repeat split.
Qed.

Lemma activity_starts_session_witness :
  let now := mk_clock 1700000000%float 1700000000.25%float in
  let u := fst (update_ui now true (Some "sqlcmd") fresh) in
  session_start u = Some 1700000000%float /\
  status_label u = "Activity detected! Monitoring..." /\
  program_label u = "Program: sqlcmd".
Proof.
  apply (activity_starts_session
           (mk_clock 1700000000%float 1700000000.25%float)
           (Some "sqlcmd") fresh);
    vm_compute; reflexivity.
Defined.

(** C8: after a successful query the poller reports activity exactly when
    the result set is non-empty, and reports the program name of the first
    row, or "Unknown" when there is none; indexing the first row never
    raises, because it is only evaluated for a non-empty result. *)
Theorem poller_reports_first_program rows :
  exists is_active program,
    report rows = inr (is_active, program) /\
    (is_active = true <-> rows <> []) /\
    program = match rows with
              | r :: _ => program_name r
              | [] => Some "Unknown"
              end /\
    forall now self,
      poll_and_update (mk_tick (inr rows) now) self =
      update_ui now is_active program self.
Proof.
  exists (bool_list rows), (program_of rows).
  split; [apply report_eq|]. split; [|split].
  - destruct rows; cbn; split; congruence.
  - destruct rows; reflexivity.
  - intros now self. unfold poll_and_update, bind, lift.
    cbv beta iota delta [ret raise fetched clock].
    rewrite report_eq. reflexivity.
Qed.

(** C9: on the expiry tick the progress bar and the remaining-time label are
    not written: they keep the values they had before the tick. *)
Theorem expiry_keeps_display t rows self start :
  fetched t = inr rows ->
  session_start self = Some start ->
  bool_float start = true ->
  (remaining_at (clock t) start <=? 0)%float = true ->
  progress_bar (check_database_activity t self) = progress_bar self /\
  time_label (check_database_activity t self) = time_label self.
Proof.
  intros Hf Hs Ht Hr.
  rewrite (tick_expiry _ _ _ _ Hf Hs Ht Hr). split; reflexivity.
Qed.

Lemma expiry_keeps_display_witness :
  let self := run [tick_at [] 1700003301.5%float] started in
  let u := check_database_activity (tick_at [row1] 1700003600%float) self in
  (progress_bar self, time_label self) = (91, "Time Remaining: 0:04:58") /\
  progress_bar u = progress_bar self /\
  time_label u = time_label self.
Proof.
  split; [vm_compute; reflexivity|].
  apply (expiry_keeps_display
           (tick_at [row1] 1700003600%float) [row1]
           (run [tick_at [] 1700003301.5%float] started)
           1700000000%float);
    vm_compute; reflexivity.
Defined.

(** C10: while a session is running the program label is not written by any
    tick, whatever program the poller reports and whether or not the poll
    succeeds: it keeps the value written when the session started, through
    every run of ticks in which no completion is announced. *)
Theorem program_label_frozen_while_running self :
  running self = true ->
  (forall t,
     program_label (check_database_activity t self) = program_label self) /\
  (forall ticks d,
     notifications (run ticks self) = (notifications self ++ d)%list ->
     ~ In completion_notice d ->
     program_label (run ticks self) = program_label self).
Proof.
  intros Hrun. split.
  - intros t. now apply tick_keeps_program_label.
  - intros ticks d. now apply run_keeps_program_label.
Qed.

Lemma program_label_frozen_while_running_witness :
  program_label started = "Program: sqlcmd" /\
  (forall t,
     program_label (check_database_activity t started)
     = program_label started) /\
  program_label
    (run [tick_at [row2] 1700000002%float; tick_at [] 1700000004%float;
          mk_tick (inl (DatabaseError "timeout")) (mk_clock 0 0)] started)
  = program_label started.
Proof.
  split; [vm_compute; reflexivity|].
  destruct (program_label_frozen_while_running started) as [H1 H2];
    [vm_compute; reflexivity|].
  split; [exact H1|].
  apply (H2 _ []); [vm_compute; reflexivity|].
  intros [].
Defined.

(** * Further properties of the two callbacks *)

(** ** What [update_ui] never writes *)

Lemma update_ui_frame now is_active program self :
  let u := fst (update_ui now is_active program self) in
  server_name u = server_name self /\
  database_name u = database_name self /\
  error_log u = error_log self.
Proof.
  destruct (session_start self) as [start|] eqn:Hs; destruct is_active;
    ui_steps; cbn; repeat split; reflexivity.
Qed.

Lemma tick_frame t self :
  let u := check_database_activity t self in
  server_name u = server_name self /\
  database_name u = database_name self.
Proof.
  destruct (fetched t) as [e|rows] eqn:Hf; cbv zeta.
  - rewrite (tick_failed _ _ _ Hf). split; reflexivity.
  - rewrite (tick_fetched _ _ _ Hf).
    destruct (update_ui_frame (clock t) (bool_list rows) (program_of rows) self)
      as (H1 & H2 & _).
    destruct (update_ui _ _ _ _) as [u [e|[]]]; cbn [fst] in H1, H2;
      split; assumption.
Qed.

(** X13: the server and database names given to the constructor are never
    written again: after any run of ticks they are what they were. *)
Theorem configuration_is_fixed ticks self :
  server_name (run ticks self) = server_name self /\
  database_name (run ticks self) = database_name self.
Proof.
  revert self. induction ticks as [|t ticks IH]; intros self.
  - split; reflexivity.
  - rewrite run_cons. destruct (IH (check_database_activity t self)) as [H1 H2].
    destruct (tick_frame t self) as [F1 F2]. split; congruence.
Qed.

(** ** The error path *)

(** X9: a tick writes at most one record to the error log, and when it does
    the record is "Connection error: m" and the status line reads
    "Error: m" for the same message m; otherwise the log is untouched. *)
Theorem error_is_logged_and_shown_together t self :
  let u := check_database_activity t self in
  error_log u = error_log self \/
  exists m,
    error_log u = (error_log self ++ [("Connection error: " ++ m)%string])%list /\
    status_label u = "Error: " ++ m.
Proof.
  cbv zeta. destruct (fetched t) as [e|rows] eqn:Hf.
  - right. exists (str_exn e). rewrite (tick_failed _ _ _ Hf).
    split; reflexivity.
  - rewrite (tick_fetched _ _ _ Hf).
    destruct (update_ui_frame (clock t) (bool_list rows) (program_of rows) self)
      as (_ & _ & H3).
    destruct (update_ui _ _ _ _) as [u [e|[]]]; cbn [fst] in H3.
    + right. exists (str_exn e). cbn. rewrite H3. split; reflexivity.
    + left. exact H3.
Qed.

Lemma tick_failed_view t self :
  poll_failed t ->
  timer_view (check_database_activity t self) = timer_view self /\
  length (error_log (check_database_activity t self))
  = S (length (error_log self)).
Proof.
  intros [e Hf]. rewrite (tick_failed _ _ _ Hf). split; [reflexivity|].
  cbn. rewrite length_app. cbn. lia.
Qed.

(** X8: while every poll fails, the timer stands still: after any number of
    failing ticks the start time, the flag, the three timer displays and the
    notification history are unchanged, and the log has one more record per
    tick.  In particular a session cannot expire while the database is
    unreachable. *)
Theorem failing_polls_freeze_timer ticks self :
  Forall poll_failed ticks ->
  timer_view (run ticks self) = timer_view self /\
  length (error_log (run ticks self))
  = (length (error_log self) + length ticks)%nat.
Proof.
  intros Hall. revert self.
  induction Hall as [|t ticks Ht _ IH]; intros self.
  - cbn. split; [reflexivity | lia].
  - rewrite run_cons.
    destruct (IH (check_database_activity t self)) as [H1 H2].
    destruct (tick_failed_view t self Ht) as [F1 F2].
    split; [congruence|]. rewrite H2, F2. cbn. lia.
Qed.

Lemma failing_polls_freeze_timer_witness :
  let down := mk_tick (inl (DatabaseError "timeout"))
                      (mk_clock 1700009999%float 1700009999%float) in
  timer_view (run [down; down; down] started) = timer_view started /\
  length (error_log (run [down; down; down] started)) = 3%nat.
Proof.
  apply (failing_polls_freeze_timer
           (let down := mk_tick (inl (DatabaseError "timeout"))
                                (mk_clock 1700009999%float 1700009999%float) in
            [down; down; down]) started).
  repeat constructor; exists (DatabaseError "timeout"); reflexivity.
Defined.

(** ** Ticks on which nothing happens *)

Lemma tick_idle_nothing t self :
  found_nothing t -> running self = false ->
  check_database_activity t self = self.
Proof.
  intros Hf Hidle. rewrite (tick_fetched _ _ _ Hf). cbn [bool_list].
  now rewrite (update_ui_idle _ _ _ Hidle).
Qed.

(** X1: with no session in progress, polls that find no row change nothing
    at all: the monitor after any number of them is the monitor before
    (status line, labels, progress bar, history and log included). *)
Theorem no_activity_changes_nothing ticks self :
  running self = false ->
  Forall found_nothing ticks ->
  run ticks self = self.
Proof.
  intros Hidle Hall. induction Hall as [|t ticks Ht _ IH].
  - reflexivity.
  - rewrite run_cons, (tick_idle_nothing t self Ht Hidle). exact IH.
Qed.

Lemma no_activity_changes_nothing_witness :
  run [tick_at [] 1700000000%float; tick_at [] 1700000002%float] fresh = fresh.
Proof.
  apply (no_activity_changes_nothing
           [tick_at [] 1700000000%float; tick_at [] 1700000002%float] fresh).
  - reflexivity.
  - repeat constructor.
Defined.

(** X2: while a session is in progress the result of the query is not
    looked at: two successful polls read at the same clock leave the same
    monitor, whatever rows they return. *)
Theorem running_session_ignores_rows now rows rows' self :
  running self = true ->
  check_database_activity (mk_tick (inr rows) now) self =
  check_database_activity (mk_tick (inr rows') now) self.
Proof.
  intros Hrun.
  rewrite (tick_fetched (mk_tick (inr rows) now) rows self eq_refl).
  rewrite (tick_fetched (mk_tick (inr rows') now) rows' self eq_refl).
  cbn [clock].
  rewrite (update_ui_running_args now (bool_list rows) _ self Hrun).
  rewrite (update_ui_running_args now (bool_list rows') _ self Hrun).
  reflexivity.
Qed.

Lemma running_session_ignores_rows_witness :
  let now := mk_clock 1700000100%float 1700000100%float in
  check_database_activity (mk_tick (inr []) now) started =
  check_database_activity (mk_tick (inr [row2; row1]) now) started.
Proof.
  apply (running_session_ignores_rows
           (mk_clock 1700000100%float 1700000100%float) [] [row2; row1]
           started).
  vm_compute. reflexivity.
Defined.

(** ** Notifications *)

(** X4: a tick sends at most one notification.  If it is the warning, the
    flag was down before and is up after, and a session is in progress; if
    it is the completion, the timer is idle with the flag down afterwards;
    if nothing is sent the flag is unchanged. *)
Theorem tick_sends_at_most_one_notice t self :
  let u := check_database_activity t self in
  (notifications u = notifications self /\
   notification_sent u = notification_sent self) \/
  (notifications u = (notifications self ++ [five_minute_notice])%list /\
   notification_sent self = false /\ notification_sent u = true /\
   running u = true) \/
  (notifications u = (notifications self ++ [completion_notice])%list /\
   notification_sent u = false /\ session_start u = None).
Proof.
  cbv zeta.
  destruct (tick_effect t self) as [E1 E2 _ _ | E1 E2 E3 E4 _ | E1 E2 E3 _];
    auto 10.
Qed.

Lemma five_is_not_completion : five_minute_notice <> completion_notice.
Proof. discriminate. Qed.

(** A history that replays has at most one warning more than completions. *)
Lemma replay_counts warned history w :
  replay warned history = Some w ->
  (times five_minute_notice history + Nat.b2n warned
   <= times completion_notice history + Nat.b2n w)%nat.
Proof.
  unfold times. revert warned.
  induction history as [|n l IH]; intros warned; cbn [replay].
  - intros [= <-]. cbn. lia.
  - destruct (Notification_eq_dec n completion_notice) as [->|Hc].
    + intros H. apply IH in H. cbn [Nat.b2n] in H.
      rewrite (count_occ_cons_eq Notification_eq_dec l
                 (x := completion_notice) (y := completion_notice) eq_refl).
      rewrite (count_occ_cons_neq Notification_eq_dec l
                 (x := completion_notice) (y := five_minute_notice))
        by (intros E; symmetry in E; exact (five_is_not_completion E)).
      destruct warned; cbn [Nat.b2n]; lia.
    + destruct (Notification_eq_dec n five_minute_notice) as [->|Hf].
      * destruct warned; [discriminate|]. intros H. apply IH in H.
        cbn [Nat.b2n] in *.
        rewrite (count_occ_cons_eq Notification_eq_dec l
                   (x := five_minute_notice) (y := five_minute_notice) eq_refl).
        rewrite (count_occ_cons_neq Notification_eq_dec l
                   (x := five_minute_notice) (y := completion_notice))
          by exact five_is_not_completion.
        lia.
      * intros H. apply IH in H.
        rewrite !count_occ_cons_neq by congruence. exact H.
Qed.

Lemma run_only_two_notices ticks self :
  Forall (fun n => n = five_minute_notice \/ n = completion_notice)
         (notifications self) ->
  Forall (fun n => n = five_minute_notice \/ n = completion_notice)
         (notifications (run ticks self)).
Proof.
  revert self. induction ticks as [|t ticks IH]; intros self Hall.
  - exact Hall.
  - rewrite run_cons. apply IH.
    destruct (tick_effect t self) as [E1 _ _ _ | E1 _ _ _ _ | E1 _ _ _];
      rewrite E1; [exact Hall | |];
      apply Forall_app; (split; [exact Hall|]);
      (constructor; [|constructor]); [left | right]; reflexivity.
Qed.

(** X5: whatever happens, the program sends only its two notices, and at
    any moment the warnings sent so far are at most one more than the
    completions sent so far. *)
Theorem history_has_two_notices_and_bounded_warnings server database ticks :
  let history := notifications (run ticks (init server database)) in
  Forall (fun n => n = five_minute_notice \/ n = completion_notice) history /\
  (times five_minute_notice history
   <= times completion_notice history + 1)%nat.
Proof.
  cbv zeta. split.
  - apply run_only_two_notices. constructor.
  - pose proof (run_flag_replays ticks (init server database) eq_refl) as H.
    apply replay_counts in H. cbn [Nat.b2n] in H.
    destruct (notification_sent (run ticks (init server database)));
      cbn [Nat.b2n] in H; lia.
Qed.

Lemma effect_flag_marks self u :
  effect self u -> flag_marks_last_warning self -> flag_marks_last_warning u.
Proof.
  unfold flag_marks_last_warning.
  intros [E1 E2 _ _ | E1 E2 E3 _ _ | E1 E2 _ _] Hinv.
  - rewrite E1, E2. exact Hinv.
  - rewrite E1, E3. split; [intros _; eauto | reflexivity].
  - rewrite E1, E2. split; [discriminate|].
    intros [l Hl]. apply app_inj_tail in Hl. destruct Hl as [_ Hl].
    symmetry in Hl. destruct (five_is_not_completion Hl).
Qed.

Lemma run_flag_marks ticks self :
  flag_marks_last_warning self -> flag_marks_last_warning (run ticks self).
Proof.
  revert self. induction ticks as [|t ticks IH]; intros self Hinv.
  - exact Hinv.
  - rewrite run_cons. apply IH.
    exact (effect_flag_marks _ _ (tick_effect t self) Hinv).
Qed.

(** X6: in every state the program can reach, the one-shot flag is set
    exactly when the most recent notification is the 5-minute warning. *)
Theorem flag_set_iff_last_notice_is_warning server database ticks :
  let u := run ticks (init server database) in
  notification_sent u = true <->
  exists l, notifications u = (l ++ [five_minute_notice])%list.
Proof.
  cbv zeta. apply run_flag_marks.
  unfold flag_marks_last_warning. cbn. split; [discriminate|].
  intros [l Hl]. destruct (app_cons_not_nil _ _ _ Hl).
Qed.

(** ** The length of a session *)

(** X3: the start time of a session is written once.  Through any run of
    ticks in which no completion is announced (new activity, no activity,
    failed polls, the warning) [session_start] keeps its value, so the
    60 minutes are never extended or restarted. *)
Theorem session_start_is_fixed ticks self d :
  running self = true ->
  notifications (run ticks self) = (notifications self ++ d)%list ->
  ~ In completion_notice d ->
  session_start (run ticks self) = session_start self.
Proof.
  revert self d.
  induction ticks as [|t ticks IH]; intros self d Hrun Hd Hno.
  - reflexivity.
  - rewrite run_cons in *.
    set (u := check_database_activity t self) in *.
    destruct (run_notifications_grow ticks u) as [d' Hd'].
    destruct (tick_effect t self) as [E1 _ E3 _ | E1 _ _ E4 E5 | E1 _ _ _];
      fold u in E1; rewrite E1 in Hd'.
    + destruct (E3 Hrun) as [Hs _]. fold u in Hs. rewrite <- Hs.
      apply (IH u d).
      * unfold running in *. now rewrite Hs.
      * now rewrite E1.
      * exact Hno.
    + destruct (E5 Hrun) as [Hs _]. fold u in Hs, E4. rewrite <- Hs.
      apply (IH u d'); [exact E4 | now rewrite E1, Hd' |].
      rewrite Hd', <- app_assoc in Hd. apply app_inv_head in Hd. subst d.
      intros Hin. apply Hno. right. exact Hin.
    + exfalso. rewrite Hd', <- app_assoc in Hd. apply app_inv_head in Hd.
      subst d. apply Hno. left. reflexivity.
Qed.

Lemma session_start_is_fixed_witness :
  session_start
    (run [tick_at [row2] 1700000002%float;
          mk_tick (inl (DatabaseError "timeout")) (mk_clock 0 0);
          tick_at [] 1700003301.5%float] started)
  = Some 1700000000%float.
Proof.
  apply (session_start_is_fixed
           [tick_at [row2] 1700000002%float;
            mk_tick (inl (DatabaseError "timeout")) (mk_clock 0 0);
            tick_at [] 1700003301.5%float] started [five_minute_notice]).
  - vm_compute. reflexivity.
  - vm_compute. reflexivity.
  - intros [H|[]]. discriminate H.
Defined.

(** X7: a tick of a session with time left sends nothing and leaves the
    flag alone when more than 300 s remain, and also when the flag is
    already set: no warning before the threshold, none after the first. *)
Theorem no_warning_early_or_again t rows self start :
  fetched t = inr rows ->
  session_start self = Some start ->
  bool_float start = true ->
  (remaining_at (clock t) start <=? 0)%float = false ->
  (remaining_at (clock t) start <=? 300)%float = false
  \/ notification_sent self = true ->
  notifications (check_database_activity t self) = notifications self /\
  notification_sent (check_database_activity t self) = notification_sent self.
Proof.
  intros Hf Hs Ht Hr Hquiet.
  destruct (tick_countdown t rows self start Hf Hs Ht Hr) as (_ & _ & H5 & H6).
  destruct Hquiet as [Hw | Hsent].
  - rewrite Hw in H5, H6. cbn [andb] in H5, H6.
    rewrite orb_false_r in H5. split; assumption.
  - rewrite Hsent in H5, H6. cbn [negb orb] in H5, H6.
    rewrite andb_false_r in H6. split; congruence.
Qed.

Lemma no_warning_early_or_again_witness :
  notifications
    (check_database_activity (tick_at [row1] 1700003299%float) started) = [] /\
  notification_sent
    (check_database_activity (tick_at [row1] 1700003299%float) started) = false.
Proof.
  apply (no_warning_early_or_again
           (tick_at [row1] 1700003299%float) [row1] started 1700000000%float);
    try (vm_compute; reflexivity).
  left. vm_compute. reflexivity.
Defined.

(** ** The status line *)

(** X10: an error message outlives the recovery.  When a poll fails during a
    session and the next poll succeeds with time left (and the display
    update completes), the status line still reads "Error: ..." with the
    old message: a running tick never writes the status line. *)
Theorem error_status_outlives_recovery e t1 t2 rows self start :
  fetched t1 = inl e ->
  fetched t2 = inr rows ->
  session_start self = Some start ->
  bool_float start = true ->
  (remaining_at (clock t2) start <=? 0)%float = false ->
  snd (update_ui (clock t2) (bool_list rows) (program_of rows)
         (check_database_activity t1 self)) = inr tt ->
  status_label (check_database_activity t2 (check_database_activity t1 self))
  = "Error: " ++ str_exn e.
Proof.
  intros Hf1 Hf2 Hs Ht Hr Hok.
  rewrite (tick_fetched _ _ _ Hf2).
  assert (Hs' : session_start (check_database_activity t1 self) = Some start)
    by (rewrite (tick_failed _ _ _ Hf1); exact Hs).
  destruct (update_ui_countdown (clock t2) (bool_list rows) (program_of rows)
              _ start Hs' Ht Hr) as (_ & H2 & _).
  destruct (update_ui _ _ _ _) as [u [e'|[]]]; cbn [fst snd] in *;
    [discriminate|].
  rewrite H2, (tick_failed _ _ _ Hf1). reflexivity.
Qed.

Lemma error_status_outlives_recovery_witness :
  status_label
    (check_database_activity (tick_at [row1] 1700000012%float)
       (check_database_activity
          (mk_tick (inl (DatabaseError "timeout"))
                   (mk_clock 1700000010%float 1700000010%float)) started))
  = "Error: timeout".
Proof.
  apply (error_status_outlives_recovery
           (DatabaseError "timeout")
           (mk_tick (inl (DatabaseError "timeout"))
                    (mk_clock 1700000010%float 1700000010%float))
           (tick_at [row1] 1700000012%float) [row1] started
           1700000000%float);
    vm_compute; reflexivity.
Defined.

(** ** Starting again *)

(** A poll that finds a row while no session is in progress: the timer
    fields after the whole callback. *)
Lemma tick_begin t rows self :
  fetched t = inr rows ->
  bool_list rows = true ->
  running self = false ->
  (remaining_at (clock t) (at_detect (clock t)) <=? 0)%float = false ->
  session_start (check_database_activity t self) = Some (at_detect (clock t)) /\
  program_label (check_database_activity t self)
  = "Program: " ++ format_pystr (program_of rows).
Proof.
  intros Hf Hrows Hidle Hr.
  pose proof (tick_fetched_view t rows self Hf) as Hv.
  rewrite Hrows, (update_ui_begin _ _ _ Hidle) in Hv.
  unfold timer_view in Hv. injection Hv as V1 _ V3 _ _ _.
  rewrite V1, V3.
  destruct (bool_float (at_detect (clock t))) eqn:Ht.
  - destruct (update_ui_countdown (clock t) false (program_of rows)
                (begun (clock t) (program_of rows) self)
                (at_detect (clock t)) eq_refl Ht Hr) as (H1 & _ & H3 & _).
    split; assumption.
  - rewrite update_ui_idle by exact Ht. split; reflexivity.
Qed.

(** X12: the tick that ends a session does not start the next one, even if
    it found rows; the next poll that finds a row does, and the new session
    is timed from that poll's own clock reading and shows that poll's
    program. *)
Theorem expired_session_restarts_on_next_activity
        t1 t2 rows1 rows2 self start :
  fetched t1 = inr rows1 ->
  session_start self = Some start ->
  bool_float start = true ->
  (remaining_at (clock t1) start <=? 0)%float = true ->
  fetched t2 = inr rows2 ->
  bool_list rows2 = true ->
  (remaining_at (clock t2) (at_detect (clock t2)) <=? 0)%float = false ->
  let u1 := check_database_activity t1 self in
  let u2 := check_database_activity t2 u1 in
  session_start u1 = None /\
  session_start u2 = Some (at_detect (clock t2)) /\
  program_label u2 = "Program: " ++ format_pystr (program_of rows2).
Proof.
  intros Hf1 Hs Ht Hr1 Hf2 Hrows Hr2 u1 u2. subst u2 u1.
  assert (Hidle : session_start (check_database_activity t1 self) = None)
    by (rewrite (tick_expiry _ _ _ _ Hf1 Hs Ht Hr1); reflexivity).
  split; [exact Hidle|].
  apply (tick_begin t2 rows2 _ Hf2 Hrows); [|exact Hr2].
  unfold running. now rewrite Hidle.
Qed.

Lemma expired_session_restarts_on_next_activity_witness :
  let u1 := check_database_activity (tick_at [row1] 1700003600%float) started in
  let u2 := check_database_activity (tick_at [row2] 1700003602%float) u1 in
  session_start u1 = None /\
  session_start u2 = Some 1700003602%float /\
  program_label u2 = "Program: Excel".
Proof.
  apply (expired_session_restarts_on_next_activity
           (tick_at [row1] 1700003600%float) (tick_at [row2] 1700003602%float)
           [row1] [row2] started 1700000000%float);
    vm_compute; reflexivity.
Defined.

(** ** The display of an ordinary tick *)

Lemma timedelta_within_a_day n :
  0 <= n < 86400 ->
  timedelta_of_seconds n = inr (mk_timedelta 0 n) /\
  str_timedelta (mk_timedelta 0 n) = hms n.
Proof.
  intros Hn. unfold timedelta_of_seconds, str_timedelta, hms.
  rewrite Z.div_small, Z.mod_small by lia. cbn [Z.abs Z.ltb Z.compare].
  cbn [td_days td_seconds Z.eqb]. rewrite Z.div_div by lia.
  split; reflexivity.
Qed.

Lemma floor_in_range q lo hi :
  (inject_Z lo <= q)%Q -> (q < inject_Z hi)%Q -> lo <= Qfloor q < hi.
Proof.
  intros Hlo Hhi. split.
  - rewrite <- (Qfloor_Z lo). now apply Qfloor_resp_le.
  - apply Z.lt_nge. intros Hge.
    apply (Qlt_irrefl q). apply Qlt_le_trans with (y := inject_Z hi);
      [exact Hhi|].
    apply Qle_trans with (y := inject_Z (Qfloor q)); [|apply Qfloor_le].
    rewrite <- Zle_Qle. exact Hge.
Qed.

(** X11: an ordinary tick completes and shows whole numbers.  When a
    session has time left, the computed progress p is in [0, 100) and the
    computed remaining time r is below one day, [update_ui] returns without
    raising, the bar shows floor(p) and the label reads
    "Time Remaining: H:MM:SS" for floor(r) seconds, with no day part. *)
Theorem ordinary_tick_display now is_active program self start p r :
  session_start self = Some start ->
  bool_float start = true ->
  (remaining_at now start <=? 0)%float = false ->
  Q_of_float (progress_at now start) = Some p ->
  (0 <= p)%Q -> (p < 100)%Q ->
  Q_of_float (remaining_at now start) = Some r ->
  (0 <= r)%Q -> (r < 86400)%Q ->
  let out := update_ui now is_active program self in
  snd out = inr tt /\
  progress_bar (fst out) = Qfloor p /\
  time_label (fst out) = "Time Remaining: " ++ hms (Qfloor r).
Proof.
  intros Hs Ht Hr Hp Hp0 Hp100 Hrem Hr0 Hr1 out. subst out.
  pose proof (int_of_float_floor _ _ Hp Hp0) as Hint_p.
  pose proof (int_of_float_floor _ _ Hrem Hr0) as Hint_r.
  pose proof (floor_in_range p 0 100 Hp0 Hp100) as Hrange_p.
  pose proof (floor_in_range r 0 86400 Hr0 Hr1) as Hrange_r.
  destruct (timedelta_within_a_day _ Hrange_r) as [Htd Hstr].
  assert (Hc1 : ((Qfloor p <? - 2147483648) || (2147483647 <? Qfloor p))%bool
                = false) by (apply orb_false_iff; lia).
  assert (Hc2 : ((Qfloor p <? 0) || (100 <? Qfloor p))%bool = false)
    by (apply orb_false_iff; lia).
  rewrite update_ui_running_args by (unfold running; rewrite Hs; exact Ht).
  unfold remaining_at, elapsed_at, progress_at in *.
  destruct (notification_sent self) eqn:Hsent;
    destruct (max_duration - (at_check now - start) <=? 300)%float eqn:Hw;
    ui_known_steps; rewrite Hstr; repeat split; reflexivity.
Qed.

Lemma ordinary_tick_display_witness :
  let now := mk_clock 1700000900%float 1700000900%float in
  let p := (25 * 2 ^ 48 # 2 ^ 48)%Q in
  let r := (2700 * 2 ^ 41 # 2 ^ 41)%Q in
  let out := update_ui now false None started in
  snd out = inr tt /\
  progress_bar (fst out) = Qfloor p /\
  time_label (fst out) = "Time Remaining: " ++ hms (Qfloor r).
Proof.
  apply (ordinary_tick_display
           (mk_clock 1700000900%float 1700000900%float) false None started
           1700000000%float (25 * 2 ^ 48 # 2 ^ 48)%Q
           (2700 * 2 ^ 41 # 2 ^ 41)%Q);
    vm_compute; solve [reflexivity | discriminate].
Defined.
